(** * A shallow embedding of the SpaceTraders driver

    The driver exists in two near-identical files, [src/index.ts] and
    [src/unnamed/part_000].  Where they differ the definitions below take
    a [Variant] argument and branch on it; everything else is shared.

    Conventions of the embedding:
    - JavaScript values are [JsVal] (numbers are integers: fractional
      numbers and the back-off delay handed to [sleep] are not modelled);
    - [state] is an explicit record that is passed in and returned;
    - the remote server is a script: the list of responses that the
      successive [fetch] calls will receive, in order.  A run that needs a
      response when the script is empty is still awaiting ([None]);
    - every [fetch] is logged together with the [retry] argument of the
      [api] activation that issued it. *)

From Stdlib Require Import ZArith String Ascii List Bool Lia.
From stdpp Require Import base option gmap strings pretty.
Import ListNotations.

Set Warnings "-register-all".

Local Open Scope string_scope.
Local Open Scope Z_scope.

(** ** Graph references

    The values built with [root.systems.one({...})] and the like: typed
    addresses of nodes, resolved later by the host.  [$argsAt] reads the
    arguments back. *)

Record ContractRef : Type := mkContractRef { contract_id : string }.
Record ShipRef : Type := mkShipRef { ship_symbol : string }.
Record WaypointRef : Type := mkWaypointRef { wp_system : string; wp_symbol : string }.

Inductive Collection : Type :=
| Factions
| Contracts
| Ships
| Systems
| Waypoints (system : option string).

Inductive Gref : Type :=
| SystemsOne (symbol : string)
| WaypointsOne (w : WaypointRef)
| ShipsOne (s : ShipRef)
| PageOf (c : Collection) (page : Z) (limit : option Z).

(** ** JavaScript values *)

Inductive JsVal : Type :=
| JUndefined
| JNull
| JBool (b : bool)
| JNum (n : Z)
| JStr (s : string)
| JArr (items : list JsVal)
| JObj (fields : list (string * JsVal))
| JGref (g : Gref).

(** Exceptions a resolver can raise.  [ApiError] is the [Error] that [api]
    builds from a response, carrying [status]; [Error] is a plain
    [new Error(message)]; [TypeError] and [SyntaxError] come from the
    runtime (destructuring [null], [res.json()] on a malformed body). *)
Inductive Exn : Type :=
| ApiError (status : Z) (message : string)
| Error (message : string)
| TypeError
| SyntaxError.

Inductive Result (A : Type) : Type :=
| Return (a : A)
| Throw (e : Exn).
Arguments Return {A} a.
Arguments Throw {A} e.

(** ToBoolean *)
Definition truthy (v : JsVal) : bool :=
  match v with
  | JUndefined | JNull => false
  | JBool b => b
  | JNum n => negb (n =? 0)
  | JStr s => negb (String.eqb s "")
  | JArr _ | JObj _ | JGref _ => true
  end.

Definition nullish (v : JsVal) : bool :=
  match v with
  | JUndefined | JNull => true
  | _ => false
  end.

(** [a ?? b] *)
Definition coalesce (a b : JsVal) : JsVal := if nullish a then b else a.

Definition lookup_field (k : string) (fs : list (string * JsVal)) : JsVal :=
  match find (fun kv => String.eqb (fst kv) k) fs with
  | Some kv => snd kv
  | None => JUndefined
  end.

(** [v?.k] for the own, named properties the driver reads. *)
Definition opt_chain (v : JsVal) (k : string) : JsVal :=
  match v with
  | JObj fs => lookup_field k fs
  | _ => JUndefined
  end.

(** [v.k]: as [v?.k], but reading a property of [undefined] or [null]
    is a TypeError. *)
Definition prop (v : JsVal) (k : string) : Result JsVal :=
  if nullish v then Throw TypeError else Return (opt_chain v k).

(** ToString, as used by template literals (the driver never interpolates
    a graph reference). *)
Fixpoint to_string (v : JsVal) : string :=
  match v with
  | JUndefined => "undefined"
  | JNull => "null"
  | JBool true => "true"
  | JBool false => "false"
  | JNum n => pretty n
  | JStr s => s
  | JArr items =>
      (fix join (l : list JsVal) : string :=
         match l with
         | [] => ""
         | [x] => if nullish x then "" else to_string x
         | x :: l' =>
             String.append (if nullish x then "" else to_string x)
                           (String.append "," (join l'))
         end) items
  | JObj _ | JGref _ => "[object Object]"
  end.

(** An optional string argument: [None] is [undefined]/[null]. *)
Definition of_opt_string (o : option string) : JsVal :=
  match o with
  | Some s => JStr s
  | None => JUndefined
  end.

Definition of_opt_Z (o : option Z) : JsVal :=
  match o with
  | Some n => JNum n
  | None => JUndefined
  end.

(** ** Process state, requests and responses *)

Inductive Variant : Type :=
| IndexTs    (* src/index.ts *)
| Part000.   (* src/unnamed/part_000 *)

(** [state.data], [state.cachedMarkets], [state.cachedJumpGates].  Reading
    a key that is absent from a cache object gives [undefined]. *)
Record State : Type := mkState {
  data : JsVal;
  cachedMarkets : gmap string JsVal;
  cachedJumpGates : gmap string JsVal
}.

Definition cache_get (m : gmap string JsVal) (k : string) : JsVal :=
  default JUndefined (m !! k).

Inductive Method : Type := GET | POST | PATCH.

(** One [fetch]: the URL is the base URL followed by [req_path] and, when a
    query object was given, by ["?"] and the encoding of [req_query] (the
    entries left after the [undefined] ones were deleted; the encoding by
    URLSearchParams is not modelled).  [req_auth] is the Authorization
    header, when one was attached. *)
Record Request : Type := mkRequest {
  req_method : Method;
  req_path : string;
  req_query : option (list (string * JsVal));
  req_body : JsVal;
  req_auth : option string
}.

(** A response: [res.status], [res.text()] and [res.json()] ([None] when
    the body is not JSON, so that [res.json()] rejects). *)
Record Response : Type := mkResponse {
  res_status : Z;
  res_text : string;
  res_json : option JsVal
}.

(** ** [api] *)

Definition drop_undefined (q : list (string * JsVal)) : list (string * JsVal) :=
  List.filter (fun kv => match snd kv with JUndefined => false | _ => true end) q.

Definition auth_header (st : State) : option string :=
  let token := opt_chain (data st) "token" in
  if truthy token then Some (String.append "Bearer " (to_string token)) else None.

Definition build_request (st : State) (method : Method) (path : string)
    (query : option (list (string * JsVal))) (body : JsVal) : Request :=
  {| req_method := method;
     req_path := path;
     req_query := option_map drop_undefined query;
     req_body := body;
     req_auth := auth_header st |}.

(** The condition of the retry branch (line 58 of both files). *)
Definition throttled (v : Variant) (status : Z) (retry : nat) : bool :=
  match v with
  | IndexTs => (status =? 429) || ((status =? 408) && (retry <? 5)%nat)
  | Part000 => (status =? 429) && (retry <? 5)%nat
  end.

Record ApiRun : Type := mkApiRun {
  api_result : option (Result JsVal);
  api_sent : list (nat * Request);
  api_rest : list Response
}.

Definition api_logged (a : nat * Request) (r : ApiRun) : ApiRun :=
  {| api_result := api_result r;
     api_sent := a :: api_sent r;
     api_rest := api_rest r |}.

Fixpoint api (v : Variant) (st : State) (method : Method) (path : string)
    (query : option (list (string * JsVal))) (body : JsVal)
    (retry : nat) (script : list Response) : ApiRun :=
  let req := build_request st method path query body in
  match script with
  | [] => mkApiRun None [(retry, req)] []
  | res :: script' =>
      if throttled v (res_status res) retry then
        api_logged (retry, req)
          (api v st method path query body (S retry) script')
      else if 300 <=? res_status res then
        mkApiRun (Some (Throw (ApiError (res_status res) (res_text res))))
                 [(retry, req)] script'
      else if res_status res =? 204 then
        mkApiRun (Some (Return (JObj []))) [(retry, req)] script'
      else
        match res_json res with
        | Some j => mkApiRun (Some (Return j)) [(retry, req)] script'
        | None => mkApiRun (Some (Throw SyntaxError)) [(retry, req)] script'
        end
  end.

(** ** Runs of a resolver or action *)

Record Run (A : Type) : Type := mkRun {
  result : option (Result A);
  final : State;
  sent : list (nat * Request);
  rest : list Response
}.
Arguments mkRun {A} _ _ _ _.
Arguments result {A} _.
Arguments final {A} _.
Arguments sent {A} _.
Arguments rest {A} _.

(** A run that finishes without touching the network. *)
Definition local {A : Type} (r : Result A) (st : State) (script : list Response) : Run A :=
  mkRun (Some r) st [] script.

(** [(await api(...)).data] and the like: continue with the value [api]
    returned, propagate what it threw. *)
Definition after_api {A : Type} (st : State) (a : ApiRun)
    (k : JsVal -> Result A * State) : Run A :=
  match api_result a with
  | None => mkRun None st (api_sent a) (api_rest a)
  | Some (Throw e) => mkRun (Some (Throw e)) st (api_sent a) (api_rest a)
  | Some (Return res) =>
      let '(r, st') := k res in mkRun (Some r) st' (api_sent a) (api_rest a)
  end.

(** ** [configure] *)

Record ConfigureArgs : Type := mkConfigureArgs {
  cfg_symbol : option string;
  cfg_faction : option string;
  cfg_token : option string;
  cfg_email : option string
}.

Definition set_data (st : State) (d : JsVal) : State :=
  {| data := d;
     cachedMarkets := cachedMarkets st;
     cachedJumpGates := cachedJumpGates st |}.

(** [const { data } = await api("POST", "register", {}, body); state.data = data] *)
Definition register (v : Variant) (st : State) (body : JsVal)
    (script : list Response) : Run unit :=
  let st1 := set_data st JUndefined in            (* delete state.data *)
  after_api st1 (api v st1 POST "register" (Some []) body 0 script)
    (fun res =>
       match prop res "data" with
       | Return d => (Return tt, set_data st1 d)
       | Throw e => (Throw e, st1)
       end).

Definition configure (v : Variant) (args : ConfigureArgs) (st : State)
    (script : list Response) : Run unit :=
  let symbol := of_opt_string (cfg_symbol args) in
  let faction := of_opt_string (cfg_faction args) in
  let token := of_opt_string (cfg_token args) in
  let email := of_opt_string (cfg_email args) in
  if truthy token then
    local (Return tt) (set_data st (JObj [("token", token)])) script
  else
    match v with
    | IndexTs =>
        if truthy symbol && truthy faction then
          register v st
            (JObj [("symbol", symbol); ("faction", faction); ("email", email)])
            script
        else
          local (Throw (Error "Must provide token or symbol and faction")) st script
    | Part000 =>
        register v st (JObj [("symbol", symbol); ("faction", faction)]) script
    end.

(** ** Regular expressions

    The fragment of ECMAScript regular expressions that [Root.parse] uses:
    literal characters, [.], sequencing, greedy bounded repetition and
    capture groups, matched by backtracking, leftmost match first.
    Strings are sequences of 8-bit characters here, so of the line
    terminators that [.] rejects only LF and CR occur. *)

Module Regex.

Inductive Re : Type :=
| RLit (c : ascii)
| RAny
| RSeq (a b : Re)
| RRep (a : Re) (lo hi : nat)       (* a{lo,hi}, greedy *)
| RGroup (i : nat) (a : Re).

Definition Caps : Type := list (nat * list ascii).

(** Line terminators among the 8-bit characters: LF and CR. *)
Definition is_line_terminator (c : ascii) : bool :=
  (nat_of_ascii c =? 10)%nat || (nat_of_ascii c =? 13)%nat.

(** Canonicalize under the [i] flag: upper-case of [a]..[z]. *)
Definition canonicalize (c : ascii) : ascii :=
  let n := nat_of_ascii c in
  if ((97 <=? n) && (n <=? 122))%nat then ascii_of_nat (n - 32) else c.

Definition char_eq (ignoreCase : bool) (a b : ascii) : bool :=
  if ignoreCase then Ascii.eqb (canonicalize a) (canonicalize b) else Ascii.eqb a b.

(** Greedy [a{lo,hi}], given the matcher [m] of [a]: one more [a] first,
    and, when that does not lead to a match, none if [lo] allows it. *)
Fixpoint repeat_greedy {T : Type}
    (m : list ascii -> Caps -> (list ascii -> Caps -> option T) -> option T)
    (hi lo : nat) (input : list ascii) (caps : Caps)
    (k : list ascii -> Caps -> option T) : option T :=
  match hi with
  | O => if (lo =? 0)%nat then k input caps else None
  | S hi' =>
      match m input caps
              (fun rest caps' => repeat_greedy m hi' (Nat.pred lo) rest caps' k) with
      | Some t => Some t
      | None => if (lo =? 0)%nat then k input caps else None
      end
  end.

(** The matcher, in continuation-passing style: [k] is what remains to
    be matched after [r]; [None] makes the matcher backtrack. *)
Fixpoint rmatch {T : Type} (ignoreCase : bool) (r : Re) (input : list ascii)
    (caps : Caps) (k : list ascii -> Caps -> option T) : option T :=
  match r with
  | RLit c =>
      match input with
      | x :: t => if char_eq ignoreCase c x then k t caps else None
      | [] => None
      end
  | RAny =>
      match input with
      | x :: t => if is_line_terminator x then None else k t caps
      | [] => None
      end
  | RSeq a b =>
      rmatch ignoreCase a input caps
        (fun rest caps' => rmatch ignoreCase b rest caps' k)
  | RGroup i a =>
      rmatch ignoreCase a input caps
        (fun rest caps' =>
           k rest ((i, firstn (length input - length rest) input) :: caps'))
  | RRep a lo hi => repeat_greedy (rmatch ignoreCase a) hi lo input caps k
  end.

(** The least and the greatest number of characters [r] can match. *)
Fixpoint min_len (r : Re) : nat :=
  match r with
  | RLit _ | RAny => 1
  | RSeq a b => min_len a + min_len b
  | RRep a lo _ => lo * min_len a
  | RGroup _ a => min_len a
  end.

Fixpoint max_len (r : Re) : nat :=
  match r with
  | RLit _ | RAny => 1
  | RSeq a b => max_len a + max_len b
  | RRep a _ hi => hi * max_len a
  | RGroup _ a => max_len a
  end.

(** What a matcher of a group-free expression does when it succeeds: it
    splits the input, hands the rest and the captures it was given to its
    continuation, and has consumed between [lo] and [hi] characters. *)
Definition consumes {T : Type} (lo hi : nat)
    (m : list ascii -> Caps -> (list ascii -> Caps -> option T) -> option T) : Prop :=
  forall input caps k x,
    m input caps k = Some x ->
    exists pre rest,
      input = (pre ++ rest)%list /\ k rest caps = Some x
      /\ (lo <= length pre)%nat /\ (length pre <= hi)%nat.

Fixpoint groupless (r : Re) : bool :=
  match r with
  | RLit _ | RAny => true
  | RSeq a b => groupless a && groupless b
  | RRep a _ _ => groupless a
  | RGroup _ _ => false
  end.

(** Leftmost match: try every start position in turn. *)
Fixpoint search (ignoreCase : bool) (r : Re) (input : list ascii) : option Caps :=
  match rmatch ignoreCase r input [] (fun _ caps => Some caps) with
  | Some caps => Some caps
  | None =>
      match input with
      | [] => None
      | _ :: t => search ignoreCase r t
      end
  end.

Definition group (caps : Caps) (i : nat) : JsVal :=
  match find (fun c => (fst c =? i)%nat) caps with
  | Some c => JStr (string_of_list_ascii (snd c))
  | None => JUndefined
  end.

(** [value.match(re)] without the [g] flag: [None] is [null], otherwise
    the capture groups of the leftmost match. *)
Definition js_match (ignoreCase : bool) (r : Re) (value : string) : option Caps :=
  search ignoreCase r (list_ascii_of_string value).

Fixpoint lit (s : string) : Re -> Re :=
  match s with
  | EmptyString => fun r => r
  | String c s' => fun r => RSeq (RLit c) (lit s' r)
  end.

End Regex.

(** ** [Root.parse] *)

Module Root.
Import Regex.

(** [X1-.{3,4}] and [-.{3,6}] *)
Definition system_body : Re := lit "X1-" (RRep RAny 3 4).
Definition waypoint_tail : Re := RSeq (RLit "-") (RRep RAny 3 6).

(** [new RegExp("(X1-.{3,4})", "i")] *)
Definition system_re : Re := RGroup 1 system_body.

(** [new RegExp("((X1-.{3,4})-.{3,6})", "i")] *)
Definition waypoint_re : Re :=
  RGroup 1 (RSeq (RGroup 2 system_body) waypoint_tail).

Definition str_of (v : JsVal) : string :=
  match v with JStr s => s | _ => "" end.

(** Destructuring [const [, a, b] = value.match(re)] throws a TypeError
    when [match] returned [null]. *)
Definition parse (name value : string) : Result (list Gref) :=
  if String.eqb name "system" then
    match js_match true system_re value with
    | None => Throw TypeError
    | Some caps =>
        let system := group caps 1 in
        if truthy system then Return [SystemsOne (str_of system)]
        else Return []
    end
  else if String.eqb name "waypoint" then
    match js_match true waypoint_re value with
    | None => Throw TypeError
    | Some caps =>
        let waypoint := group caps 1 in
        let system := group caps 2 in
        if truthy waypoint && truthy system then
          Return [WaypointsOne (mkWaypointRef (str_of system) (str_of waypoint))]
        else Return []
    end
  else Return [].

(** [status]: [`${agent.symbol}: ${agent.credits}`] when [res.data] is
    truthy, [`Not ready`] otherwise. *)
Definition status (v : Variant) (st : State) (script : list Response) : Run string :=
  after_api st (api v st GET "my/agent" None JUndefined 0 script)
    (fun res =>
       match prop res "data" with
       | Throw e => (Throw e, st)
       | Return agent =>
           if truthy agent then
             (Return (String.append (to_string (opt_chain agent "symbol"))
                        (String.append ": " (to_string (opt_chain agent "credits")))),
              st)
           else (Return "Not ready", st)
       end).

End Root.

(** ** The pattern of [setFlightMode]

    Anchors, alternation, groups and literal characters, matched by
    backtracking; [at_start] tells whether the position is the beginning
    of the input, where alone [^] matches. *)

Module Anchored.

Inductive Pat : Type :=
| PEmpty
| PLit (c : ascii)
| PSeq (a b : Pat)
| PAlt (a b : Pat)
| PBegin                  (* ^ *)
| PEnd                    (* $ *)
| PGroup (a : Pat).

Fixpoint pmatch (p : Pat) (at_start : bool) (input : list ascii)
    (k : bool -> list ascii -> bool) : bool :=
  match p with
  | PEmpty => k at_start input
  | PLit c =>
      match input with
      | x :: t => if Ascii.eqb c x then k false t else false
      | [] => false
      end
  | PSeq a b => pmatch a at_start input (fun s rest => pmatch b s rest k)
  | PAlt a b => pmatch a at_start input k || pmatch b at_start input k
  | PBegin => if at_start then k at_start input else false
  | PEnd =>
      match input with
      | [] => k at_start input
      | _ :: _ => false
      end
  | PGroup a => pmatch a at_start input k
  end.

(** [re.test(s)]: a match from some position of the input. *)
Fixpoint test_from (p : Pat) (at_start : bool) (input : list ascii) : bool :=
  pmatch p at_start input (fun _ _ => true)
  || match input with
     | [] => false
     | _ :: t => test_from p false t
     end.

Definition test (p : Pat) (s : string) : bool :=
  test_from p true (list_ascii_of_string s).

Fixpoint word (s : string) : Pat :=
  match s with
  | EmptyString => PEmpty
  | String c s' => PSeq (PLit c) (word s')
  end.

End Anchored.

(** ** Numbers

    ToNumber, [None] standing for NaN.  Of the numeric strings only the
    decimal integers are read (an optional sign and digits); white space,
    fractions, exponents and radix prefixes are outside the integer model. *)

Definition digit_val (c : ascii) : option Z :=
  let n := nat_of_ascii c in
  if ((48 <=? n) && (n <=? 57))%nat then Some (Z.of_nat (n - 48)) else None.

Fixpoint digits (acc : Z) (s : string) : option Z :=
  match s with
  | EmptyString => Some acc
  | String c s' =>
      match digit_val c with
      | Some d => digits (10 * acc + d) s'
      | None => None
      end
  end.

Definition string_to_number (s : string) : option Z :=
  match s with
  | EmptyString => Some 0
  | String "-" (String c s' as r) => option_map Z.opp (digits 0 r)
  | String "+" (String c s' as r) => digits 0 r
  | _ => digits 0 s
  end.

Definition to_number (v : JsVal) : option Z :=
  match v with
  | JUndefined => None
  | JNull => Some 0
  | JBool b => Some (if b then 1 else 0)
  | JNum n => Some n
  | JStr s => string_to_number s
  | JArr _ | JObj _ => string_to_number (to_string v)
  | JGref _ => None
  end.

(** [total > page * limit] *)
Definition has_next (total page limit : JsVal) : bool :=
  match to_number total, to_number page, to_number limit with
  | Some t, Some p, Some l => t >? p * l
  | _, _, _ => false
  end.

(** [a === b] against a string literal *)
Definition is_string (v : JsVal) (s : string) : bool :=
  match v with
  | JStr s' => String.eqb s' s
  | _ => false
  end.

(** [a || b] *)
Definition or_else (a b : JsVal) : JsVal := if truthy a then a else b.

(** ** The query-shape inspector *)

(** [info.fieldNodes[i].selectionSet.selections[j].name.value] *)
Record FieldNode : Type := mkFieldNode { selections : list string }.
Record ResolverInfo : Type := mkResolverInfo { fieldNodes : list FieldNode }.

Definition includes (l : list string) (value : string) : bool :=
  existsb (String.eqb value) l.

Definition shouldFetch (info : ResolverInfo) (simpleFields : list string) : bool :=
  existsb (fun value => negb (includes simpleFields value))
          (flat_map selections (fieldNodes info)).

(** ** Pages *)

Record PageArgs : Type := mkPageArgs { arg_page : option Z; arg_limit : option Z }.

(** [{ items, next }]; [next = None] is [null]. *)
Record Page : Type := mkPage { items : JsVal; next : option Gref }.

Definition page_query (args : PageArgs) : option (list (string * JsVal)) :=
  Some [("page", of_opt_Z (arg_page args)); ("limit", of_opt_Z (arg_limit args))].

(** [root.<collection>.page({ page: (args.page ?? 1) + 1, limit: args.limit })] *)
Definition next_page (c : Collection) (args : PageArgs) : Gref :=
  PageOf c (default 1 (arg_page args) + 1) (arg_limit args).

(** The body shared by [FactionCollection.page] and
    [ContractCollection.page]: [next] is built unconditionally. *)
Definition page_unconditional (v : Variant) (c : Collection) (path : string)
    (args : PageArgs) (st : State) (script : list Response) : Run Page :=
  after_api st (api v st GET path (page_query args) JUndefined 0 script)
    (fun res =>
       match prop res "data" with
       | Return d => (Return (mkPage d (Some (next_page c args))), st)
       | Throw e => (Throw e, st)
       end).

(** The body shared by [ShipCollection.page], [SystemCollection.page] and
    [WaypointCollection.page]: [next] depends on [res.meta]. *)
Definition page_by_meta (v : Variant) (c : Collection) (path : string)
    (args : PageArgs) (st : State) (script : list Response) : Run Page :=
  after_api st (api v st GET path (page_query args) JUndefined 0 script)
    (fun res =>
       match prop res "meta" with
       | Throw e => (Throw e, st)
       | Return meta =>
           if nullish meta then (Throw TypeError, st)
           else
             let total := opt_chain meta "total" in
             let page := opt_chain meta "page" in
             let limit := opt_chain meta "limit" in
             let hasNext := has_next total page limit in
             (Return (mkPage (opt_chain res "data")
                        (if negb hasNext then None else Some (next_page c args))),
              st)
       end).

(** What an action hands back: [res.data] in src/index.ts,
    [JSON.stringify(res.data)] in src/unnamed/part_000 (the text of the
    serialisation is not computed). *)
Inductive Payload : Type :=
| Plain (d : JsVal)
| Stringified (d : JsVal).

Definition returned (v : Variant) (d : JsVal) : Payload :=
  match v with
  | IndexTs => Plain d
  | Part000 => Stringified d
  end.

(** [const res = await api(...); return res.data] *)
Definition return_data (v : Variant) (st : State) (a : ApiRun) : Run Payload :=
  after_api st a
    (fun res =>
       match prop res "data" with
       | Return d => (Return (returned v d), st)
       | Throw e => (Throw e, st)
       end).

(** [const res = await api("GET", path); return res.data] of the [one]
    operations, which hand [res.data] back as it is in both files. *)
Definition fetch_data (v : Variant) (st : State) (path : string)
    (script : list Response) : Run JsVal :=
  after_api st (api v st GET path None JUndefined 0 script)
    (fun res =>
       match prop res "data" with
       | Return d => (Return d, st)
       | Throw e => (Throw e, st)
       end).

Module FactionCollection.
Definition page (v : Variant) := page_unconditional v Factions "factions".
Definition one (v : Variant) (symbol : string) (st : State) (script : list Response) :=
  fetch_data v st (String.append "factions/" symbol) script.
End FactionCollection.

Module ContractCollection.
Definition page (v : Variant) := page_unconditional v Contracts "my/contracts".
Definition one (v : Variant) (id : string) (st : State) (script : list Response) :=
  fetch_data v st (String.append "my/contracts/" id) script.
End ContractCollection.

Module Contract.

Record DeliverArgs : Type := mkDeliverArgs {
  shipSymbol : option string;
  ship : option ShipRef;
  others : list (string * JsVal)
}.

Definition deliver (v : Variant) (args : DeliverArgs) (self : ContractRef)
    (st : State) (script : list Response) : Run Payload :=
  if truthy (of_opt_string (shipSymbol args)) && bool_decide (is_Some (ship args)) then
    local (Throw (Error "Cannot specify both shipSymbol and ship")) st script
  else
    let shipSymbol' :=
      match ship args with
      | Some r => JStr (ship_symbol r)
      | None => of_opt_string (shipSymbol args)
      end in
    let ship' :=
      match ship args with
      | Some r => JGref (ShipsOne r)
      | None => JUndefined
      end in
    let body := JObj (("shipSymbol", shipSymbol') :: ("ship", ship') :: others args) in
    return_data v st
      (api v st POST
         (String.append "my/contracts/" (String.append (contract_id self) "/deliver"))
         (Some []) body 0 script).

Definition accept (v : Variant) (self : ContractRef)
    (st : State) (script : list Response) : Run Payload :=
  return_data v st
    (api v st POST
       (String.append "my/contracts/" (String.append (contract_id self) "/accept"))
       None JUndefined 0 script).

Definition fulfill (v : Variant) (self : ContractRef)
    (st : State) (script : list Response) : Run Payload :=
  return_data v st
    (api v st POST
       (String.append "my/contracts/" (String.append (contract_id self) "/fulfill"))
       None JUndefined 0 script).

End Contract.

Module ShipCollection.

Definition page (v : Variant) := page_by_meta v Ships "my/ships".

Record PurchaseArgs : Type := mkPurchaseArgs {
  shipType : option string;
  waypoint : option WaypointRef;
  waypointSymbol : option string
}.

Definition purchase (v : Variant) (args : PurchaseArgs)
    (st : State) (script : list Response) : Run Payload :=
  if bool_decide (is_Some (waypoint args)) && truthy (of_opt_string (waypointSymbol args)) then
    local (Throw (Error "Please provide waypoint or waypointSymbol but not both.")) st script
  else
    let waypointSymbol' :=
      match waypoint args with
      | Some w => JStr (wp_symbol w)
      | None => of_opt_string (waypointSymbol args)
      end in
    return_data v st
      (api v st POST "my/ships" (Some [])
         (JObj [("shipType", of_opt_string (shipType args));
                ("waypointSymbol", waypointSymbol')]) 0 script).

Definition one (v : Variant) (symbol : string) (st : State) (script : list Response) :=
  fetch_data v st (String.append "my/ships/" symbol) script.

End ShipCollection.

Module Ship.

(** [`my/ships/${symbol}/cooldown`] *)
Definition cooldown_path (self : ShipRef) : string :=
  String.append "my/ships/" (String.append (ship_symbol self) "/cooldown").

(** [res?.data?.remainingSeconds ?? 0] *)
Definition cooldown (v : Variant) (self : ShipRef)
    (st : State) (script : list Response) : Run JsVal :=
  after_api st
    (api v st GET (cooldown_path self) (Some []) (JObj []) 0 script)
    (fun res =>
       (Return (coalesce (opt_chain (opt_chain res "data") "remainingSeconds") (JNum 0)),
        st)).

Record NavigateArgs : Type := mkNavigateArgs {
  waypoint : option WaypointRef;
  waypointSymbol : option string
}.

(** The value returned together with the one-shot callback scheduled with
    [$invokeAt]: the arrival instant and the argument of [handleArrival]. *)
Record Navigated : Type := mkNavigated {
  nav_value : Payload;
  nav_scheduled : option (JsVal * JsVal)
}.

Definition navigate (v : Variant) (args : NavigateArgs) (self : ShipRef)
    (st : State) (script : list Response) : Run Navigated :=
  if bool_decide (is_Some (waypoint args)) && truthy (of_opt_string (waypointSymbol args)) then
    local (Throw (Error "Please provide waypoint or waypointSymbol but not both.")) st script
  else
    let waypointSymbol' :=
      match waypoint args with
      | Some w => JStr (wp_symbol w)
      | None => of_opt_string (waypointSymbol args)
      end in
    after_api st
      (api v st POST
         (String.append "my/ships/" (String.append (ship_symbol self) "/navigate"))
         (Some []) (JObj [("waypointSymbol", waypointSymbol')]) 0 script)
      (fun res =>
         match prop res "data" with
         | Throw e => (Throw e, st)
         | Return d =>
             let arrival :=
               opt_chain (opt_chain (opt_chain d "nav") "route") "arrival" in
             (Return (mkNavigated (returned v d)
                        (if truthy arrival then Some (arrival, waypointSymbol')
                         else None)),
              st)
         end).

(** [`my/ships/${symbol}/...`] *)
Definition ship_path (self : ShipRef) (leaf : string) : string :=
  String.append "my/ships/" (String.append (ship_symbol self) leaf).

(** [{ shipSymbol: symbol }] *)
Definition self_query (self : ShipRef) : option (list (string * JsVal)) :=
  Some [("shipSymbol", JStr (ship_symbol self))].

Definition post (v : Variant) (self : ShipRef) (leaf : string)
    (query : option (list (string * JsVal))) (body : JsVal)
    (st : State) (script : list Response) : Run Payload :=
  return_data v st (api v st POST (ship_path self leaf) query body 0 script).

Definition orbit (v : Variant) (self : ShipRef) :=
  post v self "/orbit" (self_query self) (JObj []).

Definition dock (v : Variant) (self : ShipRef) :=
  post v self "/dock" (self_query self) (JObj []).

Definition negotiateContract (v : Variant) (self : ShipRef) :=
  post v self "/negotiate/contract" (self_query self) (JObj []).

Definition refuel (v : Variant) (self : ShipRef) :=
  post v self "/refuel" (self_query self) (JObj []).

Definition refine (v : Variant) (produce : JsVal) (self : ShipRef) :=
  post v self "/refine" (self_query self) (JObj [("produce", produce)]).

Definition scanShips (v : Variant) (self : ShipRef) :=
  post v self "/scan/ships" (self_query self) (JObj []).

Definition scanSystems (v : Variant) (self : ShipRef) :=
  post v self "/scan/systems" (self_query self) (JObj []).

Definition scanWaypoints (v : Variant) (self : ShipRef) :=
  post v self "/scan/waypoints" (self_query self) (JObj []).

Definition chart (v : Variant) (self : ShipRef) :=
  post v self "/chart" (self_query self) (JObj []).

Definition purchase (v : Variant) (symbol units : JsVal) (self : ShipRef) :=
  post v self "/purchase" (self_query self)
    (JObj [("symbol", symbol); ("units", units)]).

Definition jettison (v : Variant) (symbol units : JsVal) (self : ShipRef) :=
  post v self "/jettison" (self_query self)
    (JObj [("symbol", symbol); ("units", units)]).

Definition installMount (v : Variant) (symbol : JsVal) (self : ShipRef) :=
  post v self "/mounts/install" (Some []) (JObj [("symbol", symbol)]).

(** src/index.ts reads [args.waypointSymbol], src/unnamed/part_000
    [args.systemSymbol]. *)
Definition warp (v : Variant) (waypointSymbol' systemSymbol : JsVal) (self : ShipRef) :=
  post v self "/warp" (Some [])
    (match v with
     | IndexTs => JObj [("waypointSymbol", waypointSymbol')]
     | Part000 => JObj [("systemSymbol", systemSymbol)]
     end).

Definition jump (v : Variant) (systemSymbol : JsVal) (self : ShipRef) :=
  post v self "/jump" (Some []) (JObj [("systemSymbol", systemSymbol)]).

Definition survey (v : Variant) (self : ShipRef) :=
  post v self "/survey" None JUndefined.

Definition sell (v : Variant) (symbol units : JsVal) (self : ShipRef) :=
  post v self "/sell" (Some []) (JObj [("symbol", symbol); ("units", units)]).

(** Only in src/index.ts. *)
Definition transferCargo (tradeSymbol units shipSymbol : JsVal) (self : ShipRef) :=
  post IndexTs self "/transfer" (Some [])
    (JObj [("tradeSymbol", tradeSymbol); ("units", units); ("shipSymbol", shipSymbol)]).

(** [/^(CRUISE|BURN|DRIFT|STEALTH)$/] *)
Definition flight_mode_re : Anchored.Pat :=
  Anchored.PSeq Anchored.PBegin
    (Anchored.PSeq
       (Anchored.PGroup
          (Anchored.PAlt (Anchored.word "CRUISE")
             (Anchored.PAlt (Anchored.word "BURN")
                (Anchored.PAlt (Anchored.word "DRIFT") (Anchored.word "STEALTH")))))
       Anchored.PEnd).

(** [test] applies ToString to [args.mode]. *)
Definition setFlightMode (v : Variant) (mode : JsVal) (self : ShipRef)
    (st : State) (script : list Response) : Run Payload :=
  if negb (Anchored.test flight_mode_re (to_string mode)) then
    local (Throw (Error "Invalid flight mode. Only CRUISE, BURN, DRIFT, STEALTH are available."))
      st script
  else
    return_data v st
      (api v st PATCH (ship_path self "/nav") (Some [])
         (JObj [("flightMode", mode)]) 0 script).

(** [handleArrival]: the value emitted on [self.arrived]. *)
Definition handleArrival (waypointSymbol' : JsVal) : JsVal := waypointSymbol'.

(** A call of one of the actions that post to the ship and exist in both
    files, as the host dispatches it. *)
Inductive Call : Type :=
| Orbit | Dock | NegotiateContract | Refuel
| Refine (produce : JsVal)
| ScanShips | ScanSystems | ScanWaypoints | Chart
| Purchase (symbol units : JsVal)
| Jettison (symbol units : JsVal)
| InstallMount (symbol : JsVal)
| Warp (waypointSymbol' systemSymbol : JsVal)
| Jump (systemSymbol : JsVal)
| Survey
| Sell (symbol units : JsVal).

Definition invoke (v : Variant) (c : Call) (self : ShipRef)
    : State -> list Response -> Run Payload :=
  match c with
  | Orbit => orbit v self
  | Dock => dock v self
  | NegotiateContract => negotiateContract v self
  | Refuel => refuel v self
  | Refine produce => refine v produce self
  | ScanShips => scanShips v self
  | ScanSystems => scanSystems v self
  | ScanWaypoints => scanWaypoints v self
  | Chart => chart v self
  | Purchase symbol units => purchase v symbol units self
  | Jettison symbol units => jettison v symbol units self
  | InstallMount symbol => installMount v symbol self
  | Warp w s => warp v w s self
  | Jump s => jump v s self
  | Survey => survey v self
  | Sell symbol units => sell v symbol units self
  end.

End Ship.

Module SystemCollection.

Definition one (v : Variant) (symbol : string) (info : ResolverInfo)
    (st : State) (script : list Response) : Run JsVal :=
  if negb (shouldFetch info ["symbol"; "waypoints"]) then
    local (Return (JObj [("symbol", JStr symbol)])) st script
  else
    after_api st
      (api v st GET (String.append "systems/" symbol) None JUndefined 0 script)
      (fun res =>
         match prop res "data" with
         | Return d => (Return d, st)
         | Throw e => (Throw e, st)
         end).

Definition page (v : Variant) := page_by_meta v Systems "systems".

End SystemCollection.

(** ** Waypoints *)

(** What a waypoint resolver reads from [self] and [context]:
    [self.$argsAt(root.systems.one)?.symbol],
    [self.$argsAt(root.systems.one.waypoints.one)?.symbol] and
    [context.systemSymbol]. *)
Record Ctx : Type := mkCtx {
  self_system : option string;
  self_waypoint : option string;
  context_systemSymbol : option string
}.

(** The fields of [obj] that the resolvers read; [obj_traits] is the
    array [obj.traits] when there is one. *)
Record WaypointObj : Type := mkWaypointObj {
  obj_symbol : option string;
  obj_type : option string;
  obj_traits : option (list JsVal)
}.

(** [self.$argsAt(root.systems.one)?.symbol || context.systemSymbol] *)
Definition system_of (ctx : Ctx) : JsVal :=
  or_else (of_opt_string (self_system ctx)) (of_opt_string (context_systemSymbol ctx)).

(** [obj.symbol ?? self.$argsAt(root.systems.one.waypoints.one)?.symbol] *)
Definition waypoint_of (ctx : Ctx) (obj : WaypointObj) : JsVal :=
  coalesce (of_opt_string (obj_symbol obj)) (of_opt_string (self_waypoint ctx)).

Definition waypoint_path (ctx : Ctx) (obj : WaypointObj) (leaf : string) : string :=
  String.append "systems/"
    (String.append (to_string (system_of ctx))
       (String.append "/waypoints/"
          (String.append (to_string (waypoint_of ctx obj)) leaf))).

(** The callback handed to [traits.every], applied to an element and its
    index.  src/unnamed/part_000 destructures the element,
    [({ symbol }) => symbol !== name]; src/index.ts destructures the second
    parameter, [(_, { symbol }) => symbol !== name], which is the index. *)
Definition trait_differs (v : Variant) (name : string) (elt : JsVal) (idx : nat)
    : Result bool :=
  match v with
  | IndexTs =>
      let symbol := opt_chain (JNum (Z.of_nat idx)) "symbol" in
      Return (negb (is_string symbol name))
  | Part000 =>
      if nullish elt then Throw TypeError
      else Return (negb (is_string (opt_chain elt "symbol") name))
  end.

(** [Array.prototype.every], stopping at the first [false]. *)
Fixpoint every (cb : JsVal -> nat -> Result bool) (idx : nat) (l : list JsVal)
    : Result bool :=
  match l with
  | [] => Return true
  | elt :: l' =>
      match cb elt idx with
      | Throw e => Throw e
      | Return false => Return false
      | Return true => every cb (S idx) l'
      end
  end.

(** [obj?.traits?.every(cb)] as a condition: [undefined] is falsy. *)
Definition no_trait (v : Variant) (name : string) (obj : WaypointObj) : Result bool :=
  match obj_traits obj with
  | None => Return false
  | Some traits => every (trait_differs v name) 0 traits
  end.

Definition set_cachedMarkets (st : State) (k : string) (d : JsVal) : State :=
  {| data := data st;
     cachedMarkets := <[k := d]> (cachedMarkets st);
     cachedJumpGates := cachedJumpGates st |}.

Definition set_cachedJumpGates (st : State) (k : string) (d : JsVal) : State :=
  {| data := data st;
     cachedMarkets := cachedMarkets st;
     cachedJumpGates := <[k := d]> (cachedJumpGates st) |}.

(** The [try { ... } catch (err) { if (err.status === notFound) return null;
    throw err; }] around a fetch; [store] is the cache write, when the
    resolver has one, made before [res.data] is returned. *)
Definition fetch_or_null (notFound : Z) (store : State -> JsVal -> State)
    (st : State) (a : ApiRun) : Run JsVal :=
  match api_result a with
  | None => mkRun None st (api_sent a) (api_rest a)
  | Some (Return res) =>
      match prop res "data" with
      | Return d => mkRun (Some (Return d)) (store st d) (api_sent a) (api_rest a)
      | Throw e => mkRun (Some (Throw e)) st (api_sent a) (api_rest a)
      end
  | Some (Throw (ApiError status message)) =>
      if status =? notFound then mkRun (Some (Return JNull)) st (api_sent a) (api_rest a)
      else mkRun (Some (Throw (ApiError status message))) st (api_sent a) (api_rest a)
  | Some (Throw e) => mkRun (Some (Throw e)) st (api_sent a) (api_rest a)
  end.

Module WaypointCollection.

Definition page (v : Variant) (ctx : Ctx) (args : PageArgs)
    (st : State) (script : list Response) : Run Page :=
  let system := system_of ctx in
  page_by_meta v
    (Waypoints (match system with JStr s => Some s | _ => None end))
    (String.append "systems/" (String.append (to_string system) "/waypoints"))
    args st script.

Definition one (v : Variant) (ctx : Ctx) (symbol : string)
    (st : State) (script : list Response) : Run JsVal :=
  fetch_data v st
    (String.append "systems/"
       (String.append (to_string (system_of ctx))
          (String.append "/waypoints/" symbol)))
    script.

End WaypointCollection.

Module Waypoint.

Definition shipyard (v : Variant) (ctx : Ctx) (obj : WaypointObj)
    (st : State) (script : list Response) : Run JsVal :=
  match no_trait v "SHIPYARD" obj with
  | Throw e => local (Throw e) st script
  | Return true => local (Return JNull) st script
  | Return false =>
      fetch_or_null 404 (fun st _ => st) st
        (api v st GET (waypoint_path ctx obj "/shipyard") None JUndefined 0 script)
  end.

Definition market (v : Variant) (ctx : Ctx) (obj : WaypointObj)
    (st : State) (script : list Response) : Run JsVal :=
  let waypoint := to_string (waypoint_of ctx obj) in
  let cached := cache_get (cachedMarkets st) waypoint in
  if truthy (opt_chain cached "transactions") then
    local (Return cached) st script
  else
    match no_trait v "MARKETPLACE" obj with
    | Throw e => local (Throw e) st script
    | Return true => local (Return JNull) st script
    | Return false =>
        fetch_or_null 404 (fun st d => set_cachedMarkets st waypoint d) st
          (api v st GET (waypoint_path ctx obj "/market") None JUndefined 0 script)
    end.

(** The status that [jumpGate] takes for "not available". *)
Definition jumpGate_notFound (v : Variant) : Z :=
  match v with
  | IndexTs => 400
  | Part000 => 404
  end.

Definition jumpGate (v : Variant) (ctx : Ctx) (obj : WaypointObj)
    (st : State) (script : list Response) : Run JsVal :=
  let waypoint := to_string (waypoint_of ctx obj) in
  let cached := cache_get (cachedJumpGates st) waypoint in
  if truthy cached then
    local (Return cached) st script
  else if negb (is_string (of_opt_string (obj_type obj)) "JUMP_GATE") then
    local (Return JNull) st script
  else
    fetch_or_null (jumpGate_notFound v) (fun st d => set_cachedJumpGates st waypoint d) st
      (api v st GET (waypoint_path ctx obj "/jump-gate") None JUndefined 0 script).

End Waypoint.

(** ** Responses and states used in the statements below *)

(** A server that keeps answering 429. *)
Definition rate_limited (n : nat) : list Response :=
  repeat (mkResponse 429 "rate limited" None) n.

(** A response with status 200 and a JSON body. *)
Definition ok (j : JsVal) : Response := mkResponse 200 "" (Some j).

(** The body of a list endpoint: [{ data, meta: { total, page, limit } }]. *)
Definition list_body (d : JsVal) (total page limit : Z) : JsVal :=
  JObj [("data", d);
        ("meta", JObj [("total", JNum total); ("page", JNum page);
                       ("limit", JNum limit)])].

Definition empty_state : State := mkState JUndefined ∅ ∅.

Definition with_token (token : string) : State :=
  mkState (JObj [("token", JStr token)]) ∅ ∅.

Definition select (names : list string) : ResolverInfo :=
  mkResolverInfo [mkFieldNode names].

(** The trait list holds trait objects, none of them with symbol [name]. *)
Definition lacks_trait (name : string) (traits : list JsVal) : Prop :=
  Forall (fun t => nullish t = false /\ is_string (opt_chain t "symbol") name = false)
         traits.

(** The trait list holds trait objects, one of them with symbol [name]. *)
Definition has_trait (name : string) (traits : list JsVal) : Prop :=
  Forall (fun t => nullish t = false) traits
  /\ Exists (fun t => is_string (opt_chain t "symbol") name = true) traits.

(** The guard of shipyard and market is passed: there is no trait list
    or, in src/unnamed/part_000, the list holds the trait. *)
Definition passes_guard (v : Variant) (name : string) (obj : WaypointObj) : Prop :=
  obj_traits obj = None
  \/ (v = Part000 /\ exists traits, obj_traits obj = Some traits /\ has_trait name traits).

Definition trait (symbol : string) : JsVal := JObj [("symbol", JStr symbol)].

(** A waypoint of system X1-AB12 and what was cached for it. *)
Definition in_system : Ctx := mkCtx (Some "X1-AB12") None None.

Definition planet : WaypointObj :=
  mkWaypointObj (Some "X1-AB12-XYZ") (Some "PLANET") (Some [trait "OUTPOST"]).

Definition gate : WaypointObj :=
  mkWaypointObj (Some "X1-AB12-XYZ") (Some "JUMP_GATE") (Some []).

Definition market_with_history : JsVal :=
  JObj [("symbol", JStr "X1-AB12-XYZ"); ("transactions", JArr [])].

Definition market_without_history : JsVal :=
  JObj [("symbol", JStr "X1-AB12-XYZ"); ("exports", JArr [])].

Definition gate_payload : JsVal := JObj [("connectedSystems", JArr [])].

(** The state with the cache entries of one waypoint removed. *)
Definition forget (st : State) (k : string) : State :=
  {| data := data st;
     cachedMarkets := delete k (cachedMarkets st);
     cachedJumpGates := delete k (cachedJumpGates st) |}.

Definition cached (market jump : JsVal) : State :=
  mkState JUndefined {["X1-AB12-XYZ" := market]} {["X1-AB12-XYZ" := jump]}.

(** The statuses on which [api] may try again. *)
Definition throttling (v : Variant) (status : Z) : Prop :=
  status = 429 \/ (v = IndexTs /\ status = 408).

(** The four flight modes. *)
Definition flight_modes : list string := ["CRUISE"; "BURN"; "DRIFT"; "STEALTH"].

(** An action that leaves the state alone and talks to one ship only: all
    it sends is one request, repeated on throttling, that posts to a path
    under [my/ships/<symbol>/], with the credential of the state and with
    no query parameter other than the ship's own symbol. *)
Definition addresses_ship (self : ShipRef) (st : State) (r : Run Payload) : Prop :=
  final r = st /\ sent r <> []
  /\ exists verb query body,
       (query = None \/ query = Some [] \/ query = Some [("shipSymbol", JStr (ship_symbol self))])
       /\ Forall (fun a =>
                    snd a = mkRequest POST
                              (String.append "my/ships/"
                                 (String.append (ship_symbol self) (String "/" verb)))
                              query body (auth_header st))
                 (sent r).

(** How an action that returns [res.data] answers the first response that
    is not throttled: [undefined] on a 204, a TypeError on a [null] body,
    [data] of any other JSON body, and the ApiError, with status and body
    text, on a status from 300 on. *)
Definition answers (v : Variant) (f : State -> list Response -> Run Payload) : Prop :=
  forall st script,
    (forall text json,
        result (f st (mkResponse 204 text json :: script))
        = Some (Return (returned v JUndefined)))
    /\ result (f st (ok JNull :: script)) = Some (Throw TypeError)
    /\ (forall j, nullish j = false ->
                  result (f st (ok j :: script))
                  = Some (Return (returned v (opt_chain j "data"))))
    /\ (forall status text json,
          300 <= status -> status <> 429 -> status <> 408 ->
          let r := f st (mkResponse status text json :: script) in
          result r = Some (Throw (ApiError status text))
          /\ final r = st /\ length (sent r) = 1%nat /\ rest r = script).

(** The system a waypoint operation addresses: the symbol in [self] when
    it is a non-empty string, else [context.systemSymbol], else the text
    ["undefined"]. *)
Definition addressed_system (ctx : Ctx) : string :=
  match self_system ctx with
  | Some (String c s) => String c s
  | _ =>
      match context_systemSymbol ctx with
      | Some s => s
      | None => "undefined"
      end
  end.

(** An operation that reads one resource: it always asks the server,
    with one [GET] of [path], without query or body, repeated on
    throttling only; it leaves the state alone, returns [data] of a JSON
    body as it is, and raises a 404 like any other error status. *)
Definition reads (path : string) (f : State -> list Response -> Run JsVal) : Prop :=
  forall st script,
    final (f st script) = st
    /\ sent (f st script) <> []
    /\ Forall (fun a => snd a = mkRequest GET path None JUndefined (auth_header st))
              (sent (f st script))
    /\ (forall j, nullish j = false ->
                  result (f st (ok j :: script)) = Some (Return (opt_chain j "data")))
    /\ (forall text json,
          result (f st (mkResponse 404 text json :: script))
          = Some (Throw (ApiError 404 text))).

(** * Properties *)

(** ** The retry loop of [api] *)

Section Api.
Variables (v : Variant) (st : State) (method : Method) (path : string).
Variables (query : option (list (string * JsVal))) (body : JsVal).

Let req := build_request st method path query body.

Lemma api_pending retry :
  api v st method path query body retry [] = mkApiRun None [(retry, req)] [].
Proof. reflexivity. Qed.

(** A throttled response is answered by a recursive call with the same
    method, path, query and body and with [retry + 1]. *)
Lemma api_throttled retry res script :
  throttled v (res_status res) retry = true ->
  api v st method path query body retry (res :: script)
  = api_logged (retry, req) (api v st method path query body (S retry) script).
Proof. intros H. simpl. rewrite H. reflexivity. Qed.

(** Any other response ends the call after this one request. *)
Lemma api_settled retry res script :
  throttled v (res_status res) retry = false ->
  api v st method path query body retry (res :: script)
  = mkApiRun
      (Some (if 300 <=? res_status res
             then Throw (ApiError (res_status res) (res_text res))
             else if res_status res =? 204 then Return (JObj [])
             else match res_json res with
                  | Some j => Return j
                  | None => Throw SyntaxError
                  end))
      [(retry, req)] script.
Proof.
  intros H. simpl. rewrite H.
  destruct (300 <=? res_status res); [reflexivity|].
  destruct (res_status res =? 204); [reflexivity|].
  destruct (res_json res); reflexivity.
Qed.

(** Every request of one call is the same request, and the retry
    counters count up from the initial one. *)
Lemma api_sent_same retry script :
  let a := api v st method path query body retry script in
  map snd (api_sent a) = repeat req (length (api_sent a))
  /\ map fst (api_sent a) = seq retry (length (api_sent a)).
Proof.
  revert retry. induction script as [|res script IH]; intros retry.
  - simpl. split; reflexivity.
  - destruct (throttled v (res_status res) retry) eqn:T.
    + rewrite (api_throttled _ _ _ T). cbn zeta. simpl.
      destruct (IH (S retry)) as [IH1 IH2]. cbn zeta in IH1, IH2.
      rewrite IH1 at 1. rewrite IH2 at 1. split; reflexivity.
    + rewrite (api_settled _ _ _ T). simpl. split; reflexivity.
Qed.

Lemma api_sent_nonempty retry script :
  api_sent (api v st method path query body retry script) <> [].
Proof.
  destruct script as [|res script]; [discriminate|].
  destruct (throttled v (res_status res) retry) eqn:T.
  - rewrite (api_throttled _ _ _ T). discriminate.
  - rewrite (api_settled _ _ _ T). discriminate.
Qed.

(** What is left of the script is what the requests did not consume. *)
Lemma api_consumes retry script :
  let a := api v st method path query body retry script in
  match api_result a with
  | Some _ => (length script = length (api_sent a) + length (api_rest a))%nat
  | None => (length (api_sent a) = S (length script) /\ api_rest a = [])
  end.
Proof.
  revert retry. induction script as [|res script IH]; intros retry.
  - simpl. split; reflexivity.
  - destruct (throttled v (res_status res) retry) eqn:T.
    + rewrite (api_throttled _ _ _ T). cbn zeta. simpl.
      specialize (IH (S retry)). cbn zeta in IH.
      destruct (api_result _); [lia|]. destruct IH as [-> ->]. split; reflexivity.
    + rewrite (api_settled _ _ _ T). simpl. reflexivity.
Qed.
End Api.

Lemma throttled_part000_bound status retry :
  throttled Part000 status retry = true -> (retry < 5)%nat.
Proof.
  simpl. intros H. apply andb_true_iff in H as [_ H].
  apply Nat.ltb_lt in H. exact H.
Qed.

(** In src/unnamed/part_000 a call makes at most six requests. *)
Lemma part000_at_most_six st method path query body retry script :
  (retry <= 5)%nat ->
  (length (api_sent (api Part000 st method path query body retry script)) + retry <= 6)%nat.
Proof.
  revert retry. induction script as [|res script IH]; intros retry Hr.
  - simpl. lia.
  - destruct (throttled Part000 (res_status res) retry) eqn:T.
    + rewrite (api_throttled _ _ _ _ _ _ _ _ _ T). simpl.
      pose proof (throttled_part000_bound _ _ T).
      specialize (IH (S retry)). lia.
    + rewrite (api_settled _ _ _ _ _ _ _ _ _ T). simpl. lia.
Qed.

(** ... and with six responses at hand it always comes to an end. *)
Lemma part000_terminates st method path query body retry script :
  (retry <= 5)%nat -> (6 <= retry + length script)%nat ->
  api_result (api Part000 st method path query body retry script) <> None.
Proof.
  revert retry. induction script as [|res script IH]; intros retry Hr Hl.
  - simpl in Hl. lia.
  - destruct (throttled Part000 (res_status res) retry) eqn:T.
    + rewrite (api_throttled _ _ _ _ _ _ _ _ _ T). simpl.
      pose proof (throttled_part000_bound _ _ T).
      apply IH; simpl in Hl; lia.
    + rewrite (api_settled _ _ _ _ _ _ _ _ _ T). simpl. discriminate.
Qed.

(** In src/unnamed/part_000 a 429 received with [retry >= 5] is raised. *)
Lemma part000_exhausted st method path query body retry text json script :
  (5 <= retry)%nat ->
  api_result (api Part000 st method path query body retry
                (mkResponse 429 text json :: script))
  = Some (Throw (ApiError 429 text)).
Proof.
  intros H. rewrite api_settled; [reflexivity|].
  simpl. apply Nat.ltb_ge in H. rewrite H. reflexivity.
Qed.

(** In src/index.ts the bound guards 408 only. *)
Lemma index_ts_408_exhausted st method path query body retry text json script :
  (5 <= retry)%nat ->
  api_result (api IndexTs st method path query body retry
                (mkResponse 408 text json :: script))
  = Some (Throw (ApiError 408 text)).
Proof.
  intros H. rewrite api_settled; [reflexivity|].
  simpl. apply Nat.ltb_ge in H. rewrite H. reflexivity.
Qed.

Lemma index_ts_429_always_throttled retry :
  throttled IndexTs 429 retry = true.
Proof. reflexivity. Qed.

(** C1 (src/index.ts): a 429 is retried whatever the retry count is.  The
    activation that receives it -- with retry count 5 as with any other --
    logs its request and calls [api] again with [retry + 1]; it never
    raises the ApiError with status 429.  Against a server that answers
    429 to the first [n] requests the call has issued [n + 1] requests,
    with retry counts [0 .. n], and is still waiting: six attempts are not
    a bound. *)
Theorem C1_index_ts_retries_429_past_five :
  forall st method path query body,
    (forall retry text json script,
        api IndexTs st method path query body retry (mkResponse 429 text json :: script)
        = api_logged (retry, build_request st method path query body)
            (api IndexTs st method path query body (S retry) script))
    /\ (forall n : nat,
          let a := api IndexTs st method path query body 0 (rate_limited n) in
          api_result a = None
          /\ length (api_sent a) = S n
          /\ map fst (api_sent a) = seq 0 (S n)
          /\ map snd (api_sent a)
             = repeat (build_request st method path query body) (S n)).
Proof.
  intros st method path query body. split.
  { intros retry text json script. apply api_throttled. reflexivity. }
  intros n. cbn zeta.
  assert (G : forall retry,
             api_result (api IndexTs st method path query body retry (rate_limited n)) = None
             /\ length (api_sent (api IndexTs st method path query body retry (rate_limited n))) = S n).
  { induction n as [|n IH]; intros retry.
    - split; reflexivity.
    - unfold rate_limited. simpl repeat.
      rewrite api_throttled by reflexivity. simpl.
      destruct (IH (S retry)) as [IH1 IH2]. unfold rate_limited in IH1, IH2.
      rewrite IH1, IH2. split; reflexivity. }
  destruct (G 0%nat) as [G1 G2].
  pose proof (api_sent_same IndexTs st method path query body 0 (rate_limited n)) as [S1 S2].
  rewrite G2 in S1, S2. repeat split; assumption.
Qed.

Lemma api_sent_head v st method path query body retry script :
  hd_error (api_sent (api v st method path query body retry script))
  = Some (retry, build_request st method path query body).
Proof.
  destruct script as [|res script]; [reflexivity|].
  destruct (throttled v (res_status res) retry) eqn:T.
  - rewrite (api_throttled _ _ _ _ _ _ _ _ _ T). reflexivity.
  - rewrite (api_settled _ _ _ _ _ _ _ _ _ T). reflexivity.
Qed.

Lemma after_api_sent {A : Type} st a (k : JsVal -> Result A * State) :
  sent (after_api st a k) = api_sent a.
Proof.
  unfold after_api. destruct (api_result a) as [[res|e]|]; try reflexivity.
  destruct (k res). reflexivity.
Qed.

(** A response below 300 is never throttled. *)
Lemma success_not_throttled v status retry :
  status < 300 -> throttled v status retry = false.
Proof.
  intros H. destruct v; simpl.
  - replace (status =? 429) with false by (symmetry; apply Z.eqb_neq; lia).
    replace (status =? 408) with false by (symmetry; apply Z.eqb_neq; lia).
    reflexivity.
  - replace (status =? 429) with false by (symmetry; apply Z.eqb_neq; lia).
    reflexivity.
Qed.

Lemma api_ok v st method path query body retry j script :
  api v st method path query body retry (ok j :: script)
  = mkApiRun (Some (Return j))
      [(retry, build_request st method path query body)] script.
Proof.
  rewrite api_settled by (apply success_not_throttled; simpl; lia).
  reflexivity.
Qed.

(** ** Pages *)

Lemma has_next_numbers total page limit :
  negb (has_next (JNum total) (JNum page) (JNum limit)) = (total <=? page * limit).
Proof.
  unfold has_next. simpl.
  destruct (Z.leb_spec total (page * limit)); destruct (Z.gtb_spec total (page * limit));
    simpl; try reflexivity; lia.
Qed.

(** Ships, systems and waypoints: [next] is [null] exactly when
    [total <= page * limit], and otherwise addresses page
    [(args.page ?? 1) + 1] with the same [limit] argument. *)
Lemma page_by_meta_next v c path args st d total page limit script :
  page_by_meta v c path args st (ok (list_body d total page limit) :: script)
  = mkRun
      (Some (Return (mkPage d (if total <=? page * limit then None
                               else Some (next_page c args)))))
      st [(0%nat, build_request st GET path (page_query args) JUndefined)] script.
Proof.
  unfold page_by_meta. rewrite api_ok. unfold after_api. cbn -[has_next Z.leb Z.mul].
  rewrite has_next_numbers. reflexivity.
Qed.

Lemma page_by_meta_null_iff v c path args st d total page limit script :
  (exists p, result (page_by_meta v c path args st
                       (ok (list_body d total page limit) :: script))
             = Some (Return p) /\ (next p = None <-> total <= page * limit)).
Proof.
  rewrite page_by_meta_next. eexists. split; [reflexivity|]. simpl.
  destruct (Z.leb_spec total (page * limit)); split; intros; try lia; try reflexivity.
  discriminate.
Qed.

(** C2 (both files): [FactionCollection.page] and
    [ContractCollection.page] never look at [res.meta]; whatever [total],
    [page] and [limit] the response carries -- also when
    [total <= page * limit] -- [next] is a reference to the following
    page, never [null]. *)
Theorem C2_factions_contracts_next_never_null :
  forall v args st d total page limit script,
    FactionCollection.page v args st (ok (list_body d total page limit) :: script)
    = mkRun (Some (Return (mkPage d (Some (next_page Factions args)))))
        st [(0%nat, build_request st GET "factions" (page_query args) JUndefined)]
        script
    /\ ContractCollection.page v args st (ok (list_body d total page limit) :: script)
       = mkRun (Some (Return (mkPage d (Some (next_page Contracts args)))))
           st [(0%nat, build_request st GET "my/contracts" (page_query args) JUndefined)]
           script.
Proof.
  intros. unfold FactionCollection.page, ContractCollection.page, page_unconditional.
  rewrite !api_ok. split; reflexivity.
Qed.

(** ** [Root.parse] *)

Lemma parse_system_example :
  Root.parse "system" "X1-AB12" = Return [SystemsOne "X1-AB12"].
Proof. vm_compute. reflexivity. Qed.

Lemma parse_waypoint_example :
  Root.parse "waypoint" "X1-AB12-XYZ"
  = Return [WaypointsOne (mkWaypointRef "X1-AB12" "X1-AB12-XYZ")].
Proof. vm_compute. reflexivity. Qed.

(** The patterns are not anchored and [.] also matches ["-"]. *)
Lemma parse_system_unanchored :
  Root.parse "system" "fly to x1-abc-xyz" = Return [SystemsOne "x1-abc-"].
Proof. vm_compute. reflexivity. Qed.

Lemma parse_other_name value : Root.parse "ship" value = Return [].
Proof. reflexivity. Qed.

Lemma parse_system_no_match value :
  Regex.js_match true Root.system_re value = None ->
  Root.parse "system" value = Throw TypeError.
Proof. intros H. unfold Root.parse. simpl String.eqb. cbv iota. rewrite H. reflexivity. Qed.

Lemma parse_waypoint_no_match value :
  Regex.js_match true Root.waypoint_re value = None ->
  Root.parse "waypoint" value = Throw TypeError.
Proof. intros H. unfold Root.parse. simpl String.eqb. cbv iota. rewrite H. reflexivity. Qed.

(** *** Inputs that match *)

Import Regex.

Section Matcher.
Context {T : Type} (ignoreCase : bool).

(** Close a goal [input = pre ++ rest /\ k rest caps = Some x /\ lo <= _ /\ _ <= hi]. *)
Ltac consumed H :=
  split; [try reflexivity; rewrite <- ?app_assoc; reflexivity
         |split; [exact H|rewrite ?length_app; split; simpl in *; nia]].

Lemma repeat_greedy_consumes mn mx
    (m : list ascii -> Caps -> (list ascii -> Caps -> option T) -> option T) :
  consumes mn mx m ->
  forall hi lo, consumes (lo * mn) (hi * mx) (repeat_greedy m hi lo).
Proof.
  intros Hm. induction hi as [|hi IH]; intros lo input caps k x H; simpl in H.
  - destruct (Nat.eqb_spec lo 0); [|discriminate]. subst lo.
    exists [], input. consumed H.
  - destruct (m input caps _) eqn:E.
    + injection H as ->.
      apply Hm in E as (pre1 & rest1 & -> & E & L1 & U1).
      apply IH in E as (pre2 & rest2 & -> & E & L2 & U2).
      exists (pre1 ++ pre2)%list, rest2. destruct lo; consumed E.
    + destruct (Nat.eqb_spec lo 0); [|discriminate]. subst lo.
      exists [], input. consumed H.
Qed.

Lemma rmatch_consumes r :
  groupless r = true ->
  consumes (T := T) (min_len r) (max_len r) (rmatch ignoreCase r).
Proof.
  induction r as [c| |a IHa b IHb|a IHa lo hi|i a IHa]; intros G; simpl in G.
  - intros [|c' t] caps k x H; simpl in H; [discriminate|].
    destruct (char_eq ignoreCase c c'); [|discriminate].
    exists [c'], t. consumed H.
  - intros [|c' t] caps k x H; simpl in H; [discriminate|].
    destruct (is_line_terminator c'); [discriminate|].
    exists [c'], t. consumed H.
  - apply andb_true_iff in G as [Ga Gb].
    intros input caps k x H. simpl in H.
    apply (IHa Ga) in H as (pre1 & rest1 & -> & H & L1 & U1).
    apply (IHb Gb) in H as (pre2 & rest2 & -> & H & L2 & U2).
    exists (pre1 ++ pre2)%list, rest2. consumed H.
  - intros input caps k x H. simpl in H.
    apply (repeat_greedy_consumes _ _ _ (IHa G)) in H. exact H.
  - discriminate.
Qed.

End Matcher.

Lemma search_found ignoreCase r input caps :
  search ignoreCase r input = Some caps ->
  exists skipped from,
    input = (skipped ++ from)%list
    /\ rmatch ignoreCase r from [] (fun _ caps => Some caps) = Some caps.
Proof.
  induction input as [|c input IH]; simpl.
  - destruct (rmatch _ _ _ _ _) eqn:E; [|discriminate].
    intros H. injection H as ->. exists [], []. split; [reflexivity|exact E].
  - destruct (rmatch _ _ _ _ _) eqn:E.
    + intros H. injection H as ->. exists [], (c :: input). split; [reflexivity|exact E].
    + intros H. apply IH in H as (skipped & from & -> & H).
      exists (c :: skipped), from. split; [reflexivity|exact H].
Qed.

Lemma firstn_consumed (pre rest : list ascii) :
  firstn (length (pre ++ rest)%list - length rest) (pre ++ rest)%list = pre.
Proof.
  rewrite length_app. replace (length pre + length rest - length rest)%nat
    with (length pre + 0)%nat by lia.
  rewrite firstn_app_2. simpl. apply app_nil_r.
Qed.

Lemma truthy_captured (l : list ascii) :
  (1 <= length l)%nat -> truthy (JStr (string_of_list_ascii l)) = true.
Proof. destruct l; simpl; [lia|reflexivity]. Qed.

(** An input that matches the system pattern parses as a single system
    reference: the leftmost [X1-] followed by three or four characters,
    four when there are four. *)
Lemma parse_system_matched value caps :
  Regex.js_match true Root.system_re value = Some caps ->
  exists skipped symbol rest,
    list_ascii_of_string value = (skipped ++ symbol ++ rest)%list
    /\ (6 <= length symbol <= 7)%nat
    /\ Root.parse "system" value = Return [SystemsOne (string_of_list_ascii symbol)].
Proof.
  intros H. unfold Root.parse. simpl String.eqb. cbv iota. rewrite H.
  unfold js_match in H. apply search_found in H as (skipped & from & E & H).
  unfold Root.system_re in H. simpl rmatch in H.
  change (rmatch true Root.system_body from []
            (fun rest caps' =>
               Some ((1%nat, firstn (length from - length rest) from) :: caps'))
          = Some caps) in H.
  apply (rmatch_consumes true Root.system_body eq_refl) in H
    as (symbol & rest & -> & H & L & U).
  change (min_len Root.system_body) with 6%nat in L.
  change (max_len Root.system_body) with 7%nat in U.
  rewrite firstn_consumed in H. injection H as <-.
  exists skipped, symbol, rest. split; [exact E|]. split; [lia|].
  change (group [(1%nat, symbol)] 1) with (JStr (string_of_list_ascii symbol)).
  rewrite (truthy_captured symbol) by lia. reflexivity.
Qed.

(** An input that matches the waypoint pattern parses as a single
    waypoint reference whose system is the [X1-...] part in front of the
    separating ["-"]. *)
Lemma parse_waypoint_matched value caps :
  Regex.js_match true Root.waypoint_re value = Some caps ->
  exists skipped system tail rest,
    list_ascii_of_string value = (skipped ++ (system ++ tail) ++ rest)%list
    /\ (6 <= length system <= 7)%nat /\ (4 <= length tail <= 7)%nat
    /\ Root.parse "waypoint" value
       = Return [WaypointsOne (mkWaypointRef (string_of_list_ascii system)
                                 (string_of_list_ascii (system ++ tail)%list))].
Proof.
  intros H. unfold Root.parse. simpl String.eqb. cbv iota. rewrite H.
  unfold js_match in H. apply search_found in H as (skipped & from & E & H).
  unfold Root.waypoint_re in H.
  change (rmatch true Root.system_body from []
            (fun rest1 caps1 =>
               rmatch true Root.waypoint_tail rest1
                 ((2%nat, firstn (length from - length rest1) from) :: caps1)
                 (fun rest caps' =>
                    Some ((1%nat, firstn (length from - length rest) from) :: caps')))
          = Some caps) in H.
  apply (rmatch_consumes true Root.system_body eq_refl) in H
    as (system & rest1 & -> & H & L1 & U1).
  apply (rmatch_consumes true Root.waypoint_tail eq_refl) in H
    as (tail & rest & -> & H & L2 & U2).
  change (min_len Root.system_body) with 6%nat in L1.
  change (max_len Root.system_body) with 7%nat in U1.
  change (min_len Root.waypoint_tail) with 4%nat in L2.
  change (max_len Root.waypoint_tail) with 7%nat in U2.
  rewrite firstn_consumed in H. rewrite app_assoc, firstn_consumed in H.
  injection H as <-.
  exists skipped, system, tail, rest.
  split; [rewrite <- (app_assoc system tail rest); exact E|].
  split; [lia|]. split; [lia|].
  change (group [(1%nat, (system ++ tail)%list); (2%nat, system)] 1)
    with (JStr (string_of_list_ascii (system ++ tail)%list)).
  change (group [(1%nat, (system ++ tail)%list); (2%nat, system)] 2)
    with (JStr (string_of_list_ascii system)).
  rewrite (truthy_captured system) by lia.
  rewrite (truthy_captured (system ++ tail)%list) by (rewrite length_app; lia).
  reflexivity.
Qed.

(** C4 (both files): when the input does not match the pattern selected
    by [name], [value.match] is [null] and destructuring it throws a
    TypeError; the [return []] at the end of [parse] is not reached. *)
Theorem C4_parse_throws_on_no_match :
  Regex.js_match true Root.system_re "hello" = None
  /\ Root.parse "system" "hello" = Throw TypeError
  /\ Regex.js_match true Root.waypoint_re "X1-AB12" = None
  /\ Root.parse "waypoint" "X1-AB12" = Throw TypeError.
Proof. vm_compute. repeat split; reflexivity. Qed.

(** ** The query-shape inspector and [SystemCollection.one] *)

Lemma includes_In l value : includes l value = true <-> In value l.
Proof.
  unfold includes. rewrite existsb_exists. split.
  - intros (x & Hx & E). apply String.eqb_eq in E. subst. exact Hx.
  - intros H. exists value. split; [exact H|apply String.eqb_refl].
Qed.

(** [shouldFetch] answers [true] exactly when some requested field name is
    not among [simpleFields]. *)
Lemma shouldFetch_spec info simpleFields :
  shouldFetch info simpleFields = true
  <-> exists value, In value (flat_map selections (fieldNodes info))
                    /\ ~ In value simpleFields.
Proof.
  unfold shouldFetch. rewrite existsb_exists. split.
  - intros (x & Hx & E). exists x. split; [exact Hx|].
    intros Hin. apply includes_In in Hin. rewrite Hin in E. discriminate.
  - intros (x & Hx & Hn). exists x. split; [exact Hx|].
    destruct (includes simpleFields x) eqn:E; [|reflexivity].
    apply includes_In in E. contradiction.
Qed.

Lemma shouldFetch_false info simpleFields :
  shouldFetch info simpleFields = false
  <-> forall value, In value (flat_map selections (fieldNodes info)) ->
                    In value simpleFields.
Proof.
  split.
  - intros H value Hin.
    destruct (includes simpleFields value) eqn:E; [apply includes_In; exact E|].
    assert (shouldFetch info simpleFields = true) as C; [|congruence].
    apply shouldFetch_spec. exists value. split; [exact Hin|].
    intros Hc. apply includes_In in Hc. congruence.
  - intros H. destruct (shouldFetch info simpleFields) eqn:E; [|reflexivity].
    apply shouldFetch_spec in E as (x & Hx & Hn). elim Hn. apply H. exact Hx.
Qed.

(** C5, as stated, fails: a selection of [waypoints] alone contains a
    field name other than [symbol], and yet [one] returns the stub
    without a request. *)
Lemma C5_waypoints_only_is_not_fetched :
  In "waypoints" (flat_map selections (fieldNodes (select ["waypoints"])))
  /\ "waypoints" <> "symbol"
  /\ SystemCollection.one IndexTs "X1-AB12" (select ["waypoints"]) empty_state
       [ok (JObj [("data", JObj [("symbol", JStr "X1-AB12"); ("type", JStr "RED_STAR")])])]
     = mkRun (Some (Return (JObj [("symbol", JStr "X1-AB12")]))) empty_state []
         [ok (JObj [("data", JObj [("symbol", JStr "X1-AB12"); ("type", JStr "RED_STAR")])])].
Proof.
  split; [left; reflexivity|]. split; [discriminate|]. reflexivity.
Qed.

(** C5, amended: [one] returns the stub [{ symbol }] without a request
    when every requested field name is [symbol] or [waypoints], and
    starts with the request [GET systems/<symbol>] when some requested
    name is neither; [shouldFetch] is [true] exactly when some requested
    name is outside the list it is given. *)
Theorem C5_one_fetches_unless_simple_fields :
  forall v symbol info st script,
    ((forall value, In value (flat_map selections (fieldNodes info)) ->
                    value = "symbol" \/ value = "waypoints") ->
     SystemCollection.one v symbol info st script
     = mkRun (Some (Return (JObj [("symbol", JStr symbol)]))) st [] script)
    /\ ((exists value, In value (flat_map selections (fieldNodes info))
                       /\ value <> "symbol" /\ value <> "waypoints") ->
        hd_error (sent (SystemCollection.one v symbol info st script))
        = Some (0%nat, build_request st GET (String.append "systems/" symbol)
                         None JUndefined))
    /\ (forall simpleFields,
          shouldFetch info simpleFields = true
          <-> exists value, In value (flat_map selections (fieldNodes info))
                            /\ ~ In value simpleFields).
Proof.
  intros v symbol info st script. split; [|split].
  - intros H. unfold SystemCollection.one.
    replace (shouldFetch info ["symbol"; "waypoints"]) with false; [reflexivity|].
    symmetry. apply shouldFetch_false. intros value Hin.
    destruct (H value Hin) as [-> | ->]; simpl; auto.
  - intros (value & Hin & H1 & H2). unfold SystemCollection.one.
    replace (shouldFetch info ["symbol"; "waypoints"]) with true.
    + simpl negb. cbv iota. rewrite after_api_sent. apply api_sent_head.
    + symmetry. apply shouldFetch_spec. exists value. split; [exact Hin|].
      simpl. intros [E | [E | []]]; congruence.
  - intros simpleFields. apply shouldFetch_spec.
Qed.

Lemma C5_witness :
  SystemCollection.one IndexTs "X1-AB12" (select ["symbol"; "waypoints"]) empty_state []
  = mkRun (Some (Return (JObj [("symbol", JStr "X1-AB12")]))) empty_state [] []
  /\ hd_error (sent (SystemCollection.one IndexTs "X1-AB12" (select ["symbol"; "type"])
                       empty_state []))
     = Some (0%nat, build_request empty_state GET "systems/X1-AB12" None JUndefined).
Proof.
  split.
  - apply (C5_one_fetches_unless_simple_fields IndexTs "X1-AB12"
             (select ["symbol"; "waypoints"]) empty_state []).
    simpl. intros value [<- | [<- | []]]; auto.
  - apply (C5_one_fetches_unless_simple_fields IndexTs "X1-AB12"
             (select ["symbol"; "type"]) empty_state []).
    exists "type". simpl. split; [auto|]. split; discriminate.
Defined.

(** ** [configure] *)

(** What [api] throws is an ApiError or comes from [res.json()]. *)
Lemma api_throws_no_plain_error v st method path query body retry script message :
  api_result (api v st method path query body retry script)
  <> Some (Throw (Error message)).
Proof.
  revert retry. induction script as [|res script IH]; intros retry.
  - discriminate.
  - destruct (throttled v (res_status res) retry) eqn:T.
    + rewrite (api_throttled _ _ _ _ _ _ _ _ _ T). apply IH.
    + rewrite (api_settled _ _ _ _ _ _ _ _ _ T). simpl.
      destruct (300 <=? res_status res); [discriminate|].
      destruct (res_status res =? 204); [discriminate|].
      destruct (res_json res); discriminate.
Qed.

(** With a token, both files store it and make no request. *)
Lemma configure_token v args st script token :
  cfg_token args = Some token -> token <> "" ->
  configure v args st script
  = mkRun (Some (Return tt)) (set_data st (JObj [("token", JStr token)])) [] script.
Proof.
  intros E Hne. unfold configure. rewrite E. simpl.
  destruct (String.eqb_spec token ""); [contradiction|]. reflexivity.
Qed.

(** Once a token is stored every request carries it. *)
Lemma api_attaches_token v st token method path query body retry script :
  data st = JObj [("token", JStr token)] -> token <> "" ->
  Forall (fun a => req_auth (snd a) = Some (String.append "Bearer " token))
         (api_sent (api v st method path query body retry script)).
Proof.
  intros Hd Hne.
  destruct (api_sent_same v st method path query body retry script) as [H _].
  apply List.Forall_forall. intros [n r] Hin.
  apply (in_map snd) in Hin. rewrite H in Hin. apply repeat_spec in Hin.
  simpl in Hin. subst r. unfold build_request, auth_header. simpl.
  rewrite Hd. simpl. destruct (String.eqb_spec token ""); [contradiction|]. reflexivity.
Qed.

(** Without a token and with a callsign and a faction, both files issue
    the register call and store [data] of its result. *)
Lemma configure_registers v args st script symbol faction d :
  truthy (of_opt_string (cfg_token args)) = false ->
  cfg_symbol args = Some symbol -> symbol <> "" ->
  cfg_faction args = Some faction -> faction <> "" ->
  let r := configure v args st (ok (JObj [("data", d)]) :: script) in
  result r = Some (Return tt) /\ data (final r) = d
  /\ exists body,
       sent r = [(0%nat, mkRequest POST "register" (Some []) body None)]
       /\ opt_chain body "symbol" = JStr symbol
       /\ opt_chain body "faction" = JStr faction.
Proof.
  intros Ht Es Hs Ef Hf. cbn zeta. unfold configure. rewrite Ht, Es, Ef. simpl.
  destruct (String.eqb_spec symbol ""); [contradiction|].
  destruct (String.eqb_spec faction ""); [contradiction|]. simpl.
  destruct v; unfold register; rewrite api_ok; simpl;
    (split; [reflexivity|split; [reflexivity|]]);
    eexists; (split; [reflexivity|split; reflexivity]).
Qed.

(** src/index.ts fails fast when neither is supplied. *)
Lemma index_ts_configure_fails_fast args st script :
  truthy (of_opt_string (cfg_token args)) = false ->
  truthy (of_opt_string (cfg_symbol args)) && truthy (of_opt_string (cfg_faction args))
  = false ->
  configure IndexTs args st script
  = mkRun (Some (Throw (Error "Must provide token or symbol and faction"))) st [] script.
Proof.
  intros Ht Hs. unfold configure. rewrite Ht, Hs. reflexivity.
Qed.

(** C6 (src/unnamed/part_000): [configure] has no third branch.  Called
    with neither a token nor a callsign and faction it deletes the stored
    credential and sends [POST register] with an empty pair; it never
    raises the error with which src/index.ts fails before any network
    call. *)
Theorem C6_part000_registers_without_arguments :
  forall st script,
    let nothing := mkConfigureArgs None None None None in
    let r := configure Part000 nothing st script in
    hd_error (sent r)
    = Some (0%nat, mkRequest POST "register" (Some [])
                     (JObj [("symbol", JUndefined); ("faction", JUndefined)]) None)
    /\ result r <> Some (Throw (Error "Must provide token or symbol and faction"))
    /\ configure IndexTs nothing st script
       = mkRun (Some (Throw (Error "Must provide token or symbol and faction")))
           st [] script.
Proof.
  intros st script. cbn zeta. split; [|split; [|reflexivity]].
  - unfold configure. simpl. unfold register.
    rewrite after_api_sent, api_sent_head. reflexivity.
  - unfold configure. simpl. unfold register, after_api.
    destruct (api_result _) as [[res|e]|] eqn:E; simpl.
    + unfold prop. destruct (nullish res); discriminate.
    + intros C. inversion C; subst e.
      exact (api_throws_no_plain_error _ _ _ _ _ _ _ _ _ E).
    + discriminate.
Qed.

Lemma api_sent_requests v st method path query body retry script :
  Forall (fun a => snd a = build_request st method path query body)
         (api_sent (api v st method path query body retry script)).
Proof.
  destruct (api_sent_same v st method path query body retry script) as [H _].
  apply List.Forall_forall. intros [n r] Hin.
  apply (in_map snd) in Hin. rewrite H in Hin. apply repeat_spec in Hin. exact Hin.
Qed.

Lemma register_runs v st body script :
  let r := register v st body script in
  sent r <> []
  /\ Forall (fun a => snd a = mkRequest POST "register" (Some []) body None) (sent r)
  /\ (forall e, result r = Some (Throw e) -> data (final r) = JUndefined)
  /\ (result r = None -> data (final r) = JUndefined).
Proof.
  cbn zeta. unfold register. rewrite after_api_sent.
  split; [apply api_sent_nonempty|].
  split; [exact (api_sent_requests v (set_data st JUndefined) POST "register"
                   (Some []) body 0 script)|].
  unfold after_api.
  destruct (api_result _) as [[res|e]|]; simpl.
  - unfold prop. destruct (nullish res); simpl; split; intros; try reflexivity; discriminate.
  - split; reflexivity.
  - split; reflexivity.
Qed.

(** C9: called without a token and with a callsign and a faction,
    [configure] deletes [state.data] before it calls [api]: every request
    of the register call (the retries included) is sent without an
    Authorization header, and when the call throws, or has not come back,
    the state holds no credential, whatever it held before. *)
Theorem C9_register_sent_without_credential :
  forall v args st script symbol faction,
    truthy (of_opt_string (cfg_token args)) = false ->
    cfg_symbol args = Some symbol -> symbol <> "" ->
    cfg_faction args = Some faction -> faction <> "" ->
    let r := configure v args st script in
    sent r <> []
    /\ Forall (fun a => req_method (snd a) = POST /\ req_path (snd a) = "register"
                        /\ req_auth (snd a) = None) (sent r)
    /\ (forall e, result r = Some (Throw e) -> data (final r) = JUndefined)
    /\ (result r = None -> data (final r) = JUndefined).
Proof.
  intros v args st script symbol faction Ht Es Hs Ef Hf. cbn zeta.
  unfold configure. rewrite Ht, Es, Ef. simpl.
  destruct (String.eqb_spec symbol ""); [contradiction|].
  destruct (String.eqb_spec faction ""); [contradiction|]. simpl.
  destruct v.
  - destruct (register_runs IndexTs st
                (JObj [("symbol", JStr symbol); ("faction", JStr faction);
                       ("email", of_opt_string (cfg_email args))]) script)
      as (H1 & H2 & H3 & H4).
    repeat split; try assumption.
    eapply List.Forall_impl; [|exact H2]. intros a ->. repeat split.
  - destruct (register_runs Part000 st
                (JObj [("symbol", JStr symbol); ("faction", JStr faction)]) script)
      as (H1 & H2 & H3 & H4).
    repeat split; try assumption.
    eapply List.Forall_impl; [|exact H2]. intros a ->. repeat split.
Qed.

Lemma C9_witness :
  let args := mkConfigureArgs (Some "TRADER") (Some "COSMIC") None None in
  let r := configure IndexTs args (with_token "old")
             [mkResponse 409 "callsign taken" None] in
  auth_header (with_token "old") = Some "Bearer old"
  /\ result r = Some (Throw (ApiError 409 "callsign taken"))
  /\ Forall (fun a => req_method (snd a) = POST /\ req_path (snd a) = "register"
                      /\ req_auth (snd a) = None) (sent r)
  /\ data (final r) = JUndefined.
Proof.
  cbn zeta.
  destruct (C9_register_sent_without_credential IndexTs
              (mkConfigureArgs (Some "TRADER") (Some "COSMIC") None None)
              (with_token "old") [mkResponse 409 "callsign taken" None]
              "TRADER" "COSMIC")
    as (H1 & H2 & H3 & H4);
    [reflexivity | reflexivity | discriminate | reflexivity | discriminate |].
  split; [reflexivity|]. split; [reflexivity|]. split; [exact H2|].
  apply (H3 (ApiError 409 "callsign taken")). reflexivity.
Defined.

(** ** [Ship.cooldown] *)

Lemma cooldown_result v self st script res :
  api_result (api v st GET (Ship.cooldown_path self) (Some []) (JObj []) 0 script)
  = Some (Return res) ->
  result (Ship.cooldown v self st script)
  = Some (Return (coalesce (opt_chain (opt_chain res "data") "remainingSeconds") (JNum 0)))
  /\ final (Ship.cooldown v self st script) = st.
Proof.
  intros H. unfold Ship.cooldown, after_api.
  rewrite H. split; reflexivity.
Qed.

(** C10: a 204 response makes [cooldown] return 0; for every response that
    [api] hands back as [res], [cooldown] returns 0 when
    [res.data.remainingSeconds] is missing (no [data], no
    [remainingSeconds], or [null]) and returns it verbatim otherwise, in
    particular when it is a number. *)
Theorem C10_cooldown_defaults_to_zero :
  forall v self st,
    (forall text json script,
        result (Ship.cooldown v self st (mkResponse 204 text json :: script))
        = Some (Return (JNum 0)))
    /\ (forall script res,
          api_result (api v st GET (Ship.cooldown_path self) (Some []) (JObj []) 0 script)
          = Some (Return res) ->
          nullish (opt_chain (opt_chain res "data") "remainingSeconds") = true ->
          result (Ship.cooldown v self st script) = Some (Return (JNum 0)))
    /\ (forall script res,
          api_result (api v st GET (Ship.cooldown_path self) (Some []) (JObj []) 0 script)
          = Some (Return res) ->
          nullish (opt_chain (opt_chain res "data") "remainingSeconds") = false ->
          result (Ship.cooldown v self st script)
          = Some (Return (opt_chain (opt_chain res "data") "remainingSeconds")))
    /\ (forall script j n,
          opt_chain (opt_chain j "data") "remainingSeconds" = JNum n ->
          result (Ship.cooldown v self st (ok j :: script)) = Some (Return (JNum n))).
Proof.
  intros v self st. repeat split.
  - intros text json script. unfold Ship.cooldown.
    rewrite api_settled by (apply success_not_throttled; simpl; lia). reflexivity.
  - intros script res H N. destruct (cooldown_result _ _ _ _ _ H) as [-> _].
    unfold coalesce. rewrite N. reflexivity.
  - intros script res H N. destruct (cooldown_result _ _ _ _ _ H) as [-> _].
    unfold coalesce. rewrite N. reflexivity.
  - intros script j n E. unfold Ship.cooldown. rewrite api_ok.
    unfold after_api. simpl. rewrite E. reflexivity.
Qed.

Lemma C10_witness :
  let self := mkShipRef "TRADER-1" in
  result (Ship.cooldown IndexTs self empty_state [mkResponse 204 "" None])
  = Some (Return (JNum 0))
  /\ result (Ship.cooldown Part000 self empty_state [ok (JObj [("data", JObj [])])])
     = Some (Return (JNum 0))
  /\ result (Ship.cooldown IndexTs self empty_state
               [mkResponse 429 "" None;
                ok (JObj [("data", JObj [("remainingSeconds", JNull)])])])
     = Some (Return (JNum 0))
  /\ result (Ship.cooldown IndexTs self empty_state
               [ok (JObj [("data", JObj [("remainingSeconds", JNum 42)])])])
     = Some (Return (JNum 42)).
Proof.
  cbn zeta.
  destruct (C10_cooldown_defaults_to_zero IndexTs (mkShipRef "TRADER-1") empty_state)
    as (H1 & H2 & H3 & H4).
  destruct (C10_cooldown_defaults_to_zero Part000 (mkShipRef "TRADER-1") empty_state)
    as (_ & P2 & _ & _).
  split; [apply H1|].
  split; [apply (P2 _ (JObj [("data", JObj [])])); reflexivity|].
  split; [apply (H2 _ (JObj [("data", JObj [("remainingSeconds", JNull)])])); reflexivity|].
  apply (H3 _ (JObj [("data", JObj [("remainingSeconds", JNum 42)])])); reflexivity.
Defined.

(** ** Waypoint sub-resources: guards, caches and "not found" *)

Lemma index_ts_trait_differs name elt idx :
  trait_differs IndexTs name elt idx = Return true.
Proof. reflexivity. Qed.

(** In src/index.ts the callback never reads the trait: the guard fires
    for every trait list, also one that holds the trait. *)
Lemma index_ts_guard_ignores_traits name obj traits :
  obj_traits obj = Some traits -> no_trait IndexTs name obj = Return true.
Proof.
  intros E. unfold no_trait. rewrite E. clear E. generalize 0%nat.
  induction traits as [|t traits IH]; intros idx; simpl; [reflexivity|apply IH].
Qed.

Lemma no_trait_lacks v name obj traits :
  obj_traits obj = Some traits -> lacks_trait name traits ->
  no_trait v name obj = Return true.
Proof.
  intros E L. destruct v; [eapply index_ts_guard_ignores_traits; exact E|].
  unfold no_trait. rewrite E. clear E. generalize 0%nat.
  induction L as [|t traits [Hn Hs] L IH]; intros idx; simpl; [reflexivity|].
  rewrite Hn, Hs. simpl. apply IH.
Qed.

(** In src/unnamed/part_000 a trait list that starts with the trait lets
    the resolver go on to the fetch; so does a missing trait list, in
    both files. *)
Lemma part000_trait_present name obj traits :
  obj_traits obj = Some (trait name :: traits) ->
  no_trait Part000 name obj = Return false.
Proof.
  intros E. unfold no_trait. rewrite E. simpl. rewrite String.eqb_refl. reflexivity.
Qed.

Lemma part000_has_trait name obj traits :
  obj_traits obj = Some traits -> has_trait name traits ->
  no_trait Part000 name obj = Return false.
Proof.
  intros E [N X]. unfold no_trait. rewrite E. clear E. generalize 0%nat.
  induction traits as [|t traits IH]; intros idx; [inversion X|].
  inversion N as [|? ? Nt N']; subst. simpl. rewrite Nt.
  destruct (is_string (opt_chain t "symbol") name) eqn:I; simpl; [reflexivity|].
  apply IH; [exact N'|]. inversion X as [? ? Xt|? ? X']; subst; [congruence|exact X'].
Qed.

Lemma passes_guard_no_trait v name obj :
  passes_guard v name obj -> no_trait v name obj = Return false.
Proof.
  intros [E | (-> & traits & E & H)].
  - unfold no_trait. rewrite E. reflexivity.
  - exact (part000_has_trait _ _ _ E H).
Qed.

Lemma no_trait_list v name obj :
  obj_traits obj = None -> no_trait v name obj = Return false.
Proof. intros E. unfold no_trait. rewrite E. reflexivity. Qed.

Lemma fetch_or_null_sent notFound store st a :
  sent (fetch_or_null notFound store st a) = api_sent a.
Proof.
  unfold fetch_or_null.
  destruct (api_result a) as [[res|[status message|message| |]]|]; try reflexivity.
  - destruct (prop res "data"); reflexivity.
  - destruct (status =? notFound); reflexivity.
Qed.

Lemma fetch_or_null_head notFound store st v st0 method path query body script :
  hd_error (sent (fetch_or_null notFound store st
                    (api v st0 method path query body 0 script)))
  = Some (0%nat, build_request st0 method path query body).
Proof. rewrite fetch_or_null_sent. apply api_sent_head. Qed.

Lemma fetch_or_null_not_found notFound store st a message :
  api_result a = Some (Throw (ApiError notFound message)) ->
  result (fetch_or_null notFound store st a) = Some (Return JNull)
  /\ final (fetch_or_null notFound store st a) = st.
Proof.
  intros H. unfold fetch_or_null. rewrite H, Z.eqb_refl. split; reflexivity.
Qed.

Lemma fetch_or_null_stores notFound store st a res d :
  api_result a = Some (Return res) -> prop res "data" = Return d ->
  result (fetch_or_null notFound store st a) = Some (Return d)
  /\ final (fetch_or_null notFound store st a) = store st d.
Proof.
  intros H Hd. unfold fetch_or_null. rewrite H, Hd. split; reflexivity.
Qed.

(** C3, as stated, fails: the market and jumpGate resolvers look into
    their cache before they look at the traits or the type.  For a
    waypoint of type PLANET whose trait list has no MARKETPLACE they
    return the cached entries, not [null]. *)
Lemma C3_cache_is_consulted_before_the_guards :
  lacks_trait "MARKETPLACE" [trait "OUTPOST"]
  /\ obj_traits planet = Some [trait "OUTPOST"]
  /\ obj_type planet <> Some "JUMP_GATE"
  /\ result (Waypoint.market Part000 in_system planet
               (cached market_with_history gate_payload) [])
     = Some (Return market_with_history)
  /\ result (Waypoint.jumpGate IndexTs in_system planet
               (cached market_with_history gate_payload) [])
     = Some (Return gate_payload)
  /\ market_with_history <> JNull /\ gate_payload <> JNull.
Proof.
  split.
  { constructor; [|constructor]. split; reflexivity. }
  split; [reflexivity|]. split; [discriminate|].
  split; [vm_compute; reflexivity|]. split; [vm_compute; reflexivity|].
  split; discriminate.
Qed.

(** C3, amended.  In both files:
    - shipyard returns [null] without a request when the trait list is
      there and holds no SHIPYARD trait;
    - market and jumpGate return the cached entry without a request when
      the cache has a usable one (an entry with truthy [transactions],
      respectively a truthy entry), whatever the traits and the type;
    - without a usable entry, market returns [null] without a request when
      the trait list is there and holds no MARKETPLACE trait, and jumpGate
      when the type is not JUMP_GATE;
    - otherwise jumpGate sends its request; shipyard and market send
      theirs when there is no trait list and, in src/unnamed/part_000,
      when the list holds the trait;
    - whenever a resolver does send its request and the call fails with
      the "not found" status (404; 400 for jumpGate in src/index.ts), it
      returns [null] and leaves the state as it was. *)
Theorem C3_guards_caches_and_not_found :
  forall v ctx obj st script,
    let w := to_string (waypoint_of ctx obj) in
    let market_entry := cache_get (cachedMarkets st) w in
    let gate_entry := cache_get (cachedJumpGates st) w in
    (forall traits,
        obj_traits obj = Some traits -> lacks_trait "SHIPYARD" traits ->
        Waypoint.shipyard v ctx obj st script = mkRun (Some (Return JNull)) st [] script)
    /\ (truthy (opt_chain market_entry "transactions") = true ->
        Waypoint.market v ctx obj st script
        = mkRun (Some (Return market_entry)) st [] script)
    /\ (truthy gate_entry = true ->
        Waypoint.jumpGate v ctx obj st script
        = mkRun (Some (Return gate_entry)) st [] script)
    /\ (forall traits,
          truthy (opt_chain market_entry "transactions") = false ->
          obj_traits obj = Some traits -> lacks_trait "MARKETPLACE" traits ->
          Waypoint.market v ctx obj st script = mkRun (Some (Return JNull)) st [] script)
    /\ (truthy gate_entry = false -> obj_type obj <> Some "JUMP_GATE" ->
        Waypoint.jumpGate v ctx obj st script = mkRun (Some (Return JNull)) st [] script)
    /\ (passes_guard v "SHIPYARD" obj ->
        hd_error (sent (Waypoint.shipyard v ctx obj st script))
        = Some (0%nat, build_request st GET (waypoint_path ctx obj "/shipyard")
                         None JUndefined))
    /\ (truthy (opt_chain market_entry "transactions") = false ->
        passes_guard v "MARKETPLACE" obj ->
        hd_error (sent (Waypoint.market v ctx obj st script))
        = Some (0%nat, build_request st GET (waypoint_path ctx obj "/market")
                         None JUndefined))
    /\ (truthy gate_entry = false -> obj_type obj = Some "JUMP_GATE" ->
        hd_error (sent (Waypoint.jumpGate v ctx obj st script))
        = Some (0%nat, build_request st GET (waypoint_path ctx obj "/jump-gate")
                         None JUndefined))
    /\ (forall message,
          sent (Waypoint.shipyard v ctx obj st script) <> [] ->
          api_result (api v st GET (waypoint_path ctx obj "/shipyard") None JUndefined 0 script)
          = Some (Throw (ApiError 404 message)) ->
          result (Waypoint.shipyard v ctx obj st script) = Some (Return JNull)
          /\ final (Waypoint.shipyard v ctx obj st script) = st)
    /\ (forall message,
          sent (Waypoint.market v ctx obj st script) <> [] ->
          api_result (api v st GET (waypoint_path ctx obj "/market") None JUndefined 0 script)
          = Some (Throw (ApiError 404 message)) ->
          result (Waypoint.market v ctx obj st script) = Some (Return JNull)
          /\ final (Waypoint.market v ctx obj st script) = st)
    /\ (forall message,
          sent (Waypoint.jumpGate v ctx obj st script) <> [] ->
          api_result (api v st GET (waypoint_path ctx obj "/jump-gate") None JUndefined 0 script)
          = Some (Throw (ApiError (Waypoint.jumpGate_notFound v) message)) ->
          result (Waypoint.jumpGate v ctx obj st script) = Some (Return JNull)
          /\ final (Waypoint.jumpGate v ctx obj st script) = st).
Proof.
  intros v ctx obj st script. cbn zeta.
  split; [|split; [|split; [|split; [|split; [|split; [|split; [|split; [|split; [|split]]]]]]]]].
  - intros traits E L. unfold Waypoint.shipyard.
    rewrite (no_trait_lacks v _ _ _ E L). reflexivity.
  - intros H. unfold Waypoint.market. rewrite H. reflexivity.
  - intros H. unfold Waypoint.jumpGate. rewrite H. reflexivity.
  - intros traits H E L. unfold Waypoint.market.
    rewrite H, (no_trait_lacks v _ _ _ E L). reflexivity.
  - intros H T. unfold Waypoint.jumpGate. rewrite H.
    destruct (obj_type obj) as [ty|]; simpl; [|reflexivity].
    destruct (String.eqb_spec ty "JUMP_GATE"); [congruence|reflexivity].
  - intros G. unfold Waypoint.shipyard. rewrite (passes_guard_no_trait _ _ _ G).
    apply fetch_or_null_head.
  - intros H G. unfold Waypoint.market. rewrite H, (passes_guard_no_trait _ _ _ G).
    apply fetch_or_null_head.
  - intros H T. unfold Waypoint.jumpGate. rewrite H, T. simpl.
    apply fetch_or_null_head.
  - intros message S A. revert S. unfold Waypoint.shipyard.
    destruct (no_trait v "SHIPYARD" obj) as [[|]|e]; simpl; try congruence.
    intros _. apply (fetch_or_null_not_found _ _ _ _ _ A).
  - intros message S A. revert S. unfold Waypoint.market.
    destruct (truthy _); simpl; [congruence|].
    destruct (no_trait v "MARKETPLACE" obj) as [[|]|e]; simpl; try congruence.
    intros _. apply (fetch_or_null_not_found _ _ _ _ _ A).
  - intros message S A. revert S. unfold Waypoint.jumpGate.
    destruct (truthy _); simpl; [congruence|].
    destruct (negb _); simpl; [congruence|].
    intros _. apply (fetch_or_null_not_found _ _ _ _ _ A).
Qed.

Lemma C3_witness :
  let no_list := mkWaypointObj (Some "X1-AB12-XYZ") (Some "JUMP_GATE") None in
  let yard := mkWaypointObj (Some "X1-AB12-XYZ") (Some "PLANET")
                (Some [trait "OUTPOST"; trait "SHIPYARD"]) in
  let gone := [mkResponse 404 "not found" None] in
  Waypoint.shipyard IndexTs in_system planet empty_state gone
  = mkRun (Some (Return JNull)) empty_state [] gone
  /\ Waypoint.market Part000 in_system planet empty_state gone
     = mkRun (Some (Return JNull)) empty_state [] gone
  /\ Waypoint.jumpGate IndexTs in_system planet empty_state gone
     = mkRun (Some (Return JNull)) empty_state [] gone
  /\ Waypoint.market IndexTs in_system planet (cached market_with_history gate_payload) gone
     = mkRun (Some (Return market_with_history))
         (cached market_with_history gate_payload) [] gone
  /\ Waypoint.jumpGate Part000 in_system planet (cached market_with_history gate_payload) gone
     = mkRun (Some (Return gate_payload))
         (cached market_with_history gate_payload) [] gone
  /\ hd_error (sent (Waypoint.shipyard Part000 in_system yard empty_state gone))
     = Some (0%nat, mkRequest GET "systems/X1-AB12/waypoints/X1-AB12-XYZ/shipyard"
                      None JUndefined None)
  /\ hd_error (sent (Waypoint.market IndexTs in_system no_list empty_state gone))
     = Some (0%nat, mkRequest GET "systems/X1-AB12/waypoints/X1-AB12-XYZ/market"
                      None JUndefined None)
  /\ hd_error (sent (Waypoint.jumpGate IndexTs in_system no_list empty_state gone))
     = Some (0%nat, mkRequest GET "systems/X1-AB12/waypoints/X1-AB12-XYZ/jump-gate"
                      None JUndefined None)
  /\ result (Waypoint.shipyard Part000 in_system yard empty_state gone)
     = Some (Return JNull)
  /\ result (Waypoint.market Part000 in_system no_list empty_state gone)
     = Some (Return JNull)
  /\ result (Waypoint.jumpGate Part000 in_system no_list empty_state gone)
     = Some (Return JNull)
  /\ result (Waypoint.jumpGate IndexTs in_system no_list empty_state
               [mkResponse 400 "no gate" None])
     = Some (Return JNull).
Proof.
  cbn zeta.
  assert (L : forall name, is_string (JStr "OUTPOST") name = false ->
                           lacks_trait name [trait "OUTPOST"]).
  { intros name H. constructor; [|constructor]. split; [reflexivity|exact H]. }
  assert (Y : passes_guard Part000 "SHIPYARD"
                (mkWaypointObj (Some "X1-AB12-XYZ") (Some "PLANET")
                   (Some [trait "OUTPOST"; trait "SHIPYARD"]))).
  { right. split; [reflexivity|]. eexists. split; [reflexivity|]. split.
    - repeat constructor.
    - right. left. reflexivity. }
  destruct (C3_guards_caches_and_not_found IndexTs in_system planet empty_state
              [mkResponse 404 "not found" None]) as (S1 & _ & _ & _ & J1 & _).
  destruct (C3_guards_caches_and_not_found Part000 in_system planet empty_state
              [mkResponse 404 "not found" None]) as (_ & _ & _ & M1 & _).
  destruct (C3_guards_caches_and_not_found IndexTs in_system planet
              (cached market_with_history gate_payload)
              [mkResponse 404 "not found" None]) as (_ & MH & _).
  destruct (C3_guards_caches_and_not_found Part000 in_system planet
              (cached market_with_history gate_payload)
              [mkResponse 404 "not found" None]) as (_ & _ & JH & _).
  destruct (C3_guards_caches_and_not_found Part000 in_system
              (mkWaypointObj (Some "X1-AB12-XYZ") (Some "PLANET")
                 (Some [trait "OUTPOST"; trait "SHIPYARD"])) empty_state
              [mkResponse 404 "not found" None])
    as (_ & _ & _ & _ & _ & SF & _ & _ & S2 & _).
  destruct (C3_guards_caches_and_not_found IndexTs in_system
              (mkWaypointObj (Some "X1-AB12-XYZ") (Some "JUMP_GATE") None) empty_state
              [mkResponse 404 "not found" None])
    as (_ & _ & _ & _ & _ & _ & MF & JF & _).
  destruct (C3_guards_caches_and_not_found Part000 in_system
              (mkWaypointObj (Some "X1-AB12-XYZ") (Some "JUMP_GATE") None) empty_state
              [mkResponse 404 "not found" None])
    as (_ & _ & _ & _ & _ & _ & _ & _ & _ & M2 & J2).
  destruct (C3_guards_caches_and_not_found IndexTs in_system
              (mkWaypointObj (Some "X1-AB12-XYZ") (Some "JUMP_GATE") None) empty_state
              [mkResponse 400 "no gate" None])
    as (_ & _ & _ & _ & _ & _ & _ & _ & _ & _ & J3).
  split; [apply (S1 [trait "OUTPOST"]); [reflexivity|apply L; reflexivity]|].
  split; [apply (M1 [trait "OUTPOST"]); [reflexivity|reflexivity|apply L; reflexivity]|].
  split; [apply J1; [reflexivity|discriminate]|].
  split; [apply MH; vm_compute; reflexivity|].
  split; [apply JH; vm_compute; reflexivity|].
  split; [apply SF; exact Y|].
  split; [apply MF; [reflexivity|left; reflexivity]|].
  split; [apply JF; reflexivity|].
  split; [apply (S2 "not found"); [discriminate|reflexivity]|].
  split; [apply (M2 "not found"); [discriminate|reflexivity]|].
  split; [apply (J2 "not found"); [discriminate|reflexivity]|].
  apply (J3 "no gate"); [discriminate|reflexivity].
Defined.

(** ** The two caches *)

(** [api] reads the state for the token only. *)
Lemma api_reads_data_only v st st' method path query body retry script :
  data st = data st' ->
  api v st method path query body retry script
  = api v st' method path query body retry script.
Proof.
  intros E. revert retry. induction script as [|res script IH]; intros retry; simpl;
    unfold build_request, auth_header; rewrite E; [reflexivity|].
  rewrite IH. reflexivity.
Qed.

Lemma fetch_or_null_same_outcome notFound store store' st st' a :
  let r := fetch_or_null notFound store st a in
  let r' := fetch_or_null notFound store' st' a in
  result r = result r' /\ sent r = sent r' /\ rest r = rest r'.
Proof.
  cbn zeta. unfold fetch_or_null.
  destruct (api_result a) as [[res|[status message|message| |]]|]; try (repeat split).
  - destruct (prop res "data"); reflexivity.
  - destruct (prop res "data"); reflexivity.
  - destruct (prop res "data"); reflexivity.
  - destruct (status =? notFound); reflexivity.
  - destruct (status =? notFound); reflexivity.
  - destruct (status =? notFound); reflexivity.
Qed.

Lemma forget_market_entry st k :
  cache_get (cachedMarkets (forget st k)) k = JUndefined.
Proof. unfold cache_get, forget. simpl. rewrite lookup_delete_eq. reflexivity. Qed.

Lemma forget_gate_entry st k :
  cache_get (cachedJumpGates (forget st k)) k = JUndefined.
Proof. unfold cache_get, forget. simpl. rewrite lookup_delete_eq. reflexivity. Qed.

(** A cached market without (truthy) [transactions] counts for nothing:
    the resolver does what it does when the entry is not there. *)
Lemma market_entry_without_history_is_absent v ctx obj st script :
  let w := to_string (waypoint_of ctx obj) in
  truthy (opt_chain (cache_get (cachedMarkets st) w) "transactions") = false ->
  let r := Waypoint.market v ctx obj st script in
  let r' := Waypoint.market v ctx obj (forget st w) script in
  result r = result r' /\ sent r = sent r' /\ rest r = rest r'.
Proof.
  cbn zeta. intros H. unfold Waypoint.market.
  rewrite H, forget_market_entry. simpl.
  destruct (no_trait v "MARKETPLACE" obj) as [[|]|e]; try (repeat split; reflexivity).
  rewrite (api_reads_data_only v st (forget st (to_string (waypoint_of ctx obj))))
    by reflexivity.
  apply fetch_or_null_same_outcome.
Qed.

Lemma gate_entry_falsy_is_absent v ctx obj st script :
  let w := to_string (waypoint_of ctx obj) in
  truthy (cache_get (cachedJumpGates st) w) = false ->
  let r := Waypoint.jumpGate v ctx obj st script in
  let r' := Waypoint.jumpGate v ctx obj (forget st w) script in
  result r = result r' /\ sent r = sent r' /\ rest r = rest r'.
Proof.
  cbn zeta. intros H. unfold Waypoint.jumpGate.
  rewrite H, forget_gate_entry. simpl.
  destruct (negb _); try (repeat split; reflexivity).
  rewrite (api_reads_data_only v st (forget st (to_string (waypoint_of ctx obj))))
    by reflexivity.
  apply fetch_or_null_same_outcome.
Qed.

(** C7, as stated, fails on two counts.  A cached market without
    [transactions] does not force a refetch when the trait list has no
    MARKETPLACE: the guard answers [null] and nothing is sent.  And a
    jump-gate entry that is present but falsy (here [null], stored after a
    response with [data: null]) is not served: the resolver fetches. *)
Lemma C7_guard_precedes_refetch_and_falsy_entry_misses :
  let st := cached market_without_history JNull in
  let payload := ok (JObj [("data", gate_payload)]) in
  cachedMarkets st !! "X1-AB12-XYZ" = Some market_without_history
  /\ opt_chain market_without_history "transactions" = JUndefined
  /\ result (Waypoint.market Part000 in_system planet st [payload]) = Some (Return JNull)
  /\ sent (Waypoint.market Part000 in_system planet st [payload]) = []
  /\ cachedJumpGates st !! "X1-AB12-XYZ" = Some JNull
  /\ result (Waypoint.jumpGate Part000 in_system gate st [payload])
     = Some (Return gate_payload)
  /\ sent (Waypoint.jumpGate Part000 in_system gate st [payload])
     = [(0%nat, mkRequest GET "systems/X1-AB12/waypoints/X1-AB12-XYZ/jump-gate"
                  None JUndefined None)].
Proof. vm_compute. repeat split; reflexivity. Qed.

(** C7, amended.  For the key [w] of the waypoint:
    - market returns the cached entry without a request when the entry
      has a truthy [transactions]; otherwise the entry counts for nothing,
      the resolver behaving as if it were absent (the trait guard first,
      then the fetch);
    - jumpGate returns the cached entry without a request when the entry
      is truthy, whatever its shape; a falsy entry counts for nothing;
    - when the request is sent and [api] returns [res], [res.data] is
      stored under [w] and returned. *)
Theorem C7_cache_policies :
  forall v ctx obj st script,
    let w := to_string (waypoint_of ctx obj) in
    let market_entry := cache_get (cachedMarkets st) w in
    let gate_entry := cache_get (cachedJumpGates st) w in
    let m := Waypoint.market v ctx obj st script in
    let j := Waypoint.jumpGate v ctx obj st script in
    (truthy (opt_chain market_entry "transactions") = true ->
     m = mkRun (Some (Return market_entry)) st [] script)
    /\ (truthy (opt_chain market_entry "transactions") = false ->
        let m' := Waypoint.market v ctx obj (forget st w) script in
        result m = result m' /\ sent m = sent m' /\ rest m = rest m')
    /\ (truthy gate_entry = true ->
        j = mkRun (Some (Return gate_entry)) st [] script)
    /\ (truthy gate_entry = false ->
        let j' := Waypoint.jumpGate v ctx obj (forget st w) script in
        result j = result j' /\ sent j = sent j' /\ rest j = rest j')
    /\ (forall res d,
          sent m <> [] ->
          api_result (api v st GET (waypoint_path ctx obj "/market") None JUndefined 0 script)
          = Some (Return res) ->
          prop res "data" = Return d ->
          result m = Some (Return d) /\ cachedMarkets (final m) !! w = Some d)
    /\ (forall res d,
          sent j <> [] ->
          api_result (api v st GET (waypoint_path ctx obj "/jump-gate") None JUndefined 0 script)
          = Some (Return res) ->
          prop res "data" = Return d ->
          result j = Some (Return d) /\ cachedJumpGates (final j) !! w = Some d).
Proof.
  intros v ctx obj st script. cbn zeta.
  split; [|split; [|split; [|split; [|split]]]].
  - intros H. unfold Waypoint.market. rewrite H. reflexivity.
  - apply market_entry_without_history_is_absent.
  - intros H. unfold Waypoint.jumpGate. rewrite H. reflexivity.
  - apply gate_entry_falsy_is_absent.
  - intros res d S A D. revert S. unfold Waypoint.market.
    destruct (truthy _); simpl; [congruence|].
    destruct (no_trait v "MARKETPLACE" obj) as [[|]|e]; simpl; try congruence.
    intros _. destruct (fetch_or_null_stores 404
      (fun st d => set_cachedMarkets st (to_string (waypoint_of ctx obj)) d)
      st _ _ _ A D) as [-> ->].
    split; [reflexivity|]. simpl. apply lookup_insert_eq.
  - intros res d S A D. revert S. unfold Waypoint.jumpGate.
    destruct (truthy _); simpl; [congruence|].
    destruct (negb _); simpl; [congruence|].
    intros _. destruct (fetch_or_null_stores (Waypoint.jumpGate_notFound v)
      (fun st d => set_cachedJumpGates st (to_string (waypoint_of ctx obj)) d)
      st _ _ _ A D) as [-> ->].
    split; [reflexivity|]. simpl. apply lookup_insert_eq.
Qed.

Lemma C7_witness :
  let st := cached market_with_history gate_payload in
  let stale := cached market_without_history JNull in
  let no_list := mkWaypointObj (Some "X1-AB12-XYZ") (Some "JUMP_GATE") None in
  let fresh := JObj [("symbol", JStr "X1-AB12-XYZ"); ("transactions", JArr [JNum 1])] in
  Waypoint.market IndexTs in_system gate st [] = mkRun (Some (Return market_with_history)) st [] []
  /\ Waypoint.jumpGate IndexTs in_system gate st [] = mkRun (Some (Return gate_payload)) st [] []
  /\ result (Waypoint.market IndexTs in_system no_list stale [ok (JObj [("data", fresh)])])
     = result (Waypoint.market IndexTs in_system no_list (forget stale "X1-AB12-XYZ")
                 [ok (JObj [("data", fresh)])])
  /\ result (Waypoint.jumpGate IndexTs in_system no_list stale [ok (JObj [("data", fresh)])])
     = result (Waypoint.jumpGate IndexTs in_system no_list (forget stale "X1-AB12-XYZ")
                 [ok (JObj [("data", fresh)])])
  /\ (result (Waypoint.market IndexTs in_system no_list stale [ok (JObj [("data", fresh)])])
      = Some (Return fresh)
      /\ cachedMarkets (final (Waypoint.market IndexTs in_system no_list stale
                                 [ok (JObj [("data", fresh)])])) !! "X1-AB12-XYZ"
         = Some fresh)
  /\ (result (Waypoint.jumpGate IndexTs in_system no_list stale [ok (JObj [("data", fresh)])])
      = Some (Return fresh)
      /\ cachedJumpGates (final (Waypoint.jumpGate IndexTs in_system no_list stale
                                   [ok (JObj [("data", fresh)])])) !! "X1-AB12-XYZ"
         = Some fresh).
Proof.
  cbn zeta.
  destruct (C7_cache_policies IndexTs in_system gate
              (cached market_with_history gate_payload) []) as (H1 & _ & H3 & _).
  destruct (C7_cache_policies IndexTs in_system
              (mkWaypointObj (Some "X1-AB12-XYZ") (Some "JUMP_GATE") None)
              (cached market_without_history JNull)
              [ok (JObj [("data", JObj [("symbol", JStr "X1-AB12-XYZ");
                                        ("transactions", JArr [JNum 1])])])])
    as (_ & H2 & _ & H4 & H5 & H6).
  split; [apply H1; vm_compute; reflexivity|].
  split; [apply H3; vm_compute; reflexivity|].
  split; [apply H2; vm_compute; reflexivity|].
  split; [apply H4; vm_compute; reflexivity|].
  split.
  - apply (H5 (JObj [("data", JObj [("symbol", JStr "X1-AB12-XYZ");
                                    ("transactions", JArr [JNum 1])])]));
      [vm_compute; discriminate | vm_compute; reflexivity | reflexivity].
  - apply (H6 (JObj [("data", JObj [("symbol", JStr "X1-AB12-XYZ");
                                    ("transactions", JArr [JNum 1])])]));
      [vm_compute; discriminate | vm_compute; reflexivity | reflexivity].
Defined.

(** ** Mutually exclusive arguments *)

Lemma return_data_sent v st a : sent (return_data v st a) = api_sent a.
Proof. apply after_api_sent. Qed.

(** One call of [api]: copies of one request, a single one when the
    first response is not throttled. *)
Lemma api_one_call v st method path query body script :
  let a := api v st method path query body 0 script in
  let req := build_request st method path query body in
  map snd (api_sent a) = repeat req (length (api_sent a))
  /\ (1 <= length (api_sent a))%nat
  /\ (forall res script',
        script = res :: script' -> throttled v (res_status res) 0 = false ->
        api_sent a = [(0%nat, req)]).
Proof.
  cbn zeta. split; [apply api_sent_same|]. split.
  - pose proof (api_sent_nonempty v st method path query body 0 script).
    destruct (api_sent _); [contradiction|simpl; lia].
  - intros res script' -> T. rewrite (api_settled _ _ _ _ _ _ _ _ _ T). reflexivity.
Qed.

(** C8, as stated, fails on two counts.  The checks are on truthiness: an
    empty [shipSymbol] next to a [ship] is not rejected (the reference
    wins and the request is sent).  And the single [api] call of an action
    is one HTTP request only when the server does not throttle: here the
    navigate request is sent twice. *)
Lemma C8_empty_symbol_accepted_and_requests_repeat :
  let ship := mkShipRef "TRADER-1" in
  let both := Contract.mkDeliverArgs (Some "") (Some ship)
                [("tradeSymbol", JStr "IRON_ORE"); ("units", JNum 10)] in
  let delivered := JObj [("data", JObj [("contract", JStr "c1")])] in
  let there := mkWaypointRef "X1-AB12" "X1-AB12-XYZ" in
  let moving := JObj [("data", JObj [])] in
  result (Contract.deliver IndexTs both (mkContractRef "c1") empty_state [ok delivered])
  = Some (Return (Plain (JObj [("contract", JStr "c1")])))
  /\ map (fun a => opt_chain (req_body (snd a)) "shipSymbol")
         (sent (Contract.deliver IndexTs both (mkContractRef "c1") empty_state
                  [ok delivered]))
     = [JStr "TRADER-1"]
  /\ map (fun a => req_path (snd a))
         (sent (Ship.navigate IndexTs (Ship.mkNavigateArgs (Some there) None) ship
                  empty_state [mkResponse 429 "slow down" None; ok moving]))
     = ["my/ships/TRADER-1/navigate"; "my/ships/TRADER-1/navigate"].
Proof. vm_compute. repeat split; reflexivity. Qed.

(** C8, amended.  [Contract.deliver] throws before any request when
    [shipSymbol] is a non-empty string and [ship] is given;
    [ShipCollection.purchase] and [Ship.navigate] when [waypoint] is given
    and [waypointSymbol] is a non-empty string.  When the reference is
    given and the symbol is missing or empty, the symbol of the reference
    goes into the body and [api] is called once: all requests sent are
    that one request, a single one when the first response is not
    throttled, one more for each throttled response otherwise. *)
Theorem C8_exclusive_arguments :
  forall v st script,
    (forall args self s r,
        Contract.shipSymbol args = Some s -> s <> "" -> Contract.ship args = Some r ->
        Contract.deliver v args self st script
        = mkRun (Some (Throw (Error "Cannot specify both shipSymbol and ship"))) st [] script)
    /\ (forall args s w,
          ShipCollection.waypointSymbol args = Some s -> s <> "" ->
          ShipCollection.waypoint args = Some w ->
          ShipCollection.purchase v args st script
          = mkRun (Some (Throw (Error "Please provide waypoint or waypointSymbol but not both.")))
              st [] script)
    /\ (forall args self s w,
          Ship.waypointSymbol args = Some s -> s <> "" -> Ship.waypoint args = Some w ->
          Ship.navigate v args self st script
          = mkRun (Some (Throw (Error "Please provide waypoint or waypointSymbol but not both.")))
              st [] script)
    /\ (forall args self r,
          truthy (of_opt_string (Contract.shipSymbol args)) = false ->
          Contract.ship args = Some r ->
          exists req,
            req_method req = POST
            /\ opt_chain (req_body req) "shipSymbol" = JStr (ship_symbol r)
            /\ let sent := sent (Contract.deliver v args self st script) in
               map snd sent = repeat req (length sent) /\ (1 <= length sent)%nat
               /\ (forall res script',
                     script = res :: script' -> throttled v (res_status res) 0 = false ->
                     sent = [(0%nat, req)]))
    /\ (forall args w,
          truthy (of_opt_string (ShipCollection.waypointSymbol args)) = false ->
          ShipCollection.waypoint args = Some w ->
          exists req,
            req_method req = POST
            /\ opt_chain (req_body req) "waypointSymbol" = JStr (wp_symbol w)
            /\ let sent := sent (ShipCollection.purchase v args st script) in
               map snd sent = repeat req (length sent) /\ (1 <= length sent)%nat
               /\ (forall res script',
                     script = res :: script' -> throttled v (res_status res) 0 = false ->
                     sent = [(0%nat, req)]))
    /\ (forall args self w,
          truthy (of_opt_string (Ship.waypointSymbol args)) = false ->
          Ship.waypoint args = Some w ->
          exists req,
            req_method req = POST
            /\ opt_chain (req_body req) "waypointSymbol" = JStr (wp_symbol w)
            /\ let sent := sent (Ship.navigate v args self st script) in
               map snd sent = repeat req (length sent) /\ (1 <= length sent)%nat
               /\ (forall res script',
                     script = res :: script' -> throttled v (res_status res) 0 = false ->
                     sent = [(0%nat, req)])).
Proof.
  intros v st script.
  split; [|split; [|split; [|split; [|split]]]].
  - intros args self s r Es Hs Er. unfold Contract.deliver. rewrite Es, Er. simpl.
    destruct (String.eqb_spec s ""); [contradiction|]. reflexivity.
  - intros args s w Es Hs Ew. unfold ShipCollection.purchase. rewrite Es, Ew. simpl.
    destruct (String.eqb_spec s ""); [contradiction|]. reflexivity.
  - intros args self s w Es Hs Ew. unfold Ship.navigate. rewrite Es, Ew. simpl.
    destruct (String.eqb_spec s ""); [contradiction|]. reflexivity.
  - intros args self r Ht Er. unfold Contract.deliver. rewrite Ht, Er. simpl andb.
    cbv iota. eexists. split; [|split]; [| |rewrite return_data_sent; apply api_one_call];
      reflexivity.
  - intros args w Ht Ew. unfold ShipCollection.purchase. rewrite Ht, Ew.
    rewrite andb_false_r.
    eexists. split; [|split]; [| |rewrite return_data_sent; apply api_one_call];
      reflexivity.
  - intros args self w Ht Ew. unfold Ship.navigate. rewrite Ht, Ew.
    rewrite andb_false_r.
    eexists. split; [|split]; [| |rewrite after_api_sent; apply api_one_call];
      reflexivity.
Qed.

Lemma C8_witness :
  let ship := mkShipRef "TRADER-1" in
  let there := mkWaypointRef "X1-AB12" "X1-AB12-XYZ" in
  let answer := [ok (JObj [("data", JObj [])])] in
  Contract.deliver IndexTs (Contract.mkDeliverArgs (Some "TRADER-2") (Some ship) [])
    (mkContractRef "c1") empty_state answer
  = mkRun (Some (Throw (Error "Cannot specify both shipSymbol and ship")))
      empty_state [] answer
  /\ ShipCollection.purchase Part000
       (ShipCollection.mkPurchaseArgs (Some "SHIP_PROBE") (Some there) (Some "X1-AB12-XYZ"))
       empty_state answer
     = mkRun (Some (Throw (Error "Please provide waypoint or waypointSymbol but not both.")))
         empty_state [] answer
  /\ Ship.navigate IndexTs (Ship.mkNavigateArgs (Some there) (Some "X1-AB12-XYZ")) ship
       empty_state answer
     = mkRun (Some (Throw (Error "Please provide waypoint or waypointSymbol but not both.")))
         empty_state [] answer
  /\ (exists req,
        req_method req = POST
        /\ opt_chain (req_body req) "waypointSymbol" = JStr "X1-AB12-XYZ"
        /\ sent (Ship.navigate IndexTs (Ship.mkNavigateArgs (Some there) None) ship
                   empty_state answer)
           = [(0%nat, req)]).
Proof.
  cbn zeta.
  destruct (C8_exclusive_arguments IndexTs empty_state [ok (JObj [("data", JObj [])])])
    as (D & _ & N & _ & _ & R).
  destruct (C8_exclusive_arguments Part000 empty_state [ok (JObj [("data", JObj [])])])
    as (_ & P & _).
  split; [apply (D _ _ "TRADER-2" (mkShipRef "TRADER-1")); [reflexivity|discriminate|reflexivity]|].
  split; [apply (P _ "X1-AB12-XYZ" (mkWaypointRef "X1-AB12" "X1-AB12-XYZ"));
          [reflexivity|discriminate|reflexivity]|].
  split; [apply (N _ _ "X1-AB12-XYZ" (mkWaypointRef "X1-AB12" "X1-AB12-XYZ"));
          [reflexivity|discriminate|reflexivity]|].
  destruct (R (Ship.mkNavigateArgs (Some (mkWaypointRef "X1-AB12" "X1-AB12-XYZ")) None)
              (mkShipRef "TRADER-1") (mkWaypointRef "X1-AB12" "X1-AB12-XYZ")
              eq_refl eq_refl)
    as (req & Hm & Hb & _ & _ & Hone).
  exists req. split; [exact Hm|]. split; [exact Hb|].
  apply (Hone (ok (JObj [("data", JObj [])])) []); reflexivity.
Defined.

(** * Further properties of the code *)

(** ** [api]: query, outcome and retries *)

Lemma drop_undefined_In q k val :
  In (k, val) (drop_undefined q) <-> In (k, val) q /\ val <> JUndefined.
Proof.
  unfold drop_undefined. rewrite filter_In. simpl.
  destruct val; split; intros [H1 H2]; split; try assumption; try discriminate;
    try reflexivity; congruence.
Qed.

(** X1: of a query object exactly the entries with a defined value reach
    the wire, on the first request and on every retry; without a query
    object no request has a query. *)
Theorem X1_api_query_drops_undefined :
  forall v st method path q body retry script,
    Forall (fun a =>
              exists q', req_query (snd a) = Some q'
                         /\ forall k val, In (k, val) q' <-> In (k, val) q /\ val <> JUndefined)
           (api_sent (api v st method path (Some q) body retry script))
    /\ Forall (fun a => req_query (snd a) = None)
              (api_sent (api v st method path None body retry script)).
Proof.
  intros. split.
  - eapply List.Forall_impl; [|apply api_sent_requests]. intros a ->.
    exists (drop_undefined q). split; [reflexivity|]. apply drop_undefined_In.
  - eapply List.Forall_impl; [|apply api_sent_requests]. intros a ->. reflexivity.
Qed.

Lemma throttled_throttling v status retry :
  throttled v status retry = true -> throttling v status.
Proof.
  unfold throttled, throttling. destruct v; intros H.
  - apply orb_true_iff in H as [H | H].
    + left. apply Z.eqb_eq. exact H.
    + apply andb_true_iff in H as [H _]. right. split; [reflexivity|].
      apply Z.eqb_eq. exact H.
  - apply andb_true_iff in H as [H _]. left. apply Z.eqb_eq. exact H.
Qed.

(** X2: what [api] hands back is decided by one response of the script.
    A value comes from a response below 300: the empty object for a 204,
    whatever its body, and the parsed body otherwise.  An ApiError
    carries the status, at least 300, and the text of a response.  A body
    that is not JSON under a status below 300 other than 204 is a
    SyntaxError.  Nothing else is thrown, and a call that has not come
    back has met throttling statuses only. *)
Theorem X2_api_outcome_follows_status :
  forall v st method path query body retry script,
    match api_result (api v st method path query body retry script) with
    | Some (Return j) =>
        exists res, In res script /\ res_status res < 300
                    /\ ((res_status res = 204 /\ j = JObj [])
                        \/ (res_status res <> 204 /\ res_json res = Some j))
    | Some (Throw (ApiError status message)) =>
        300 <= status
        /\ exists res, In res script /\ res_status res = status /\ res_text res = message
    | Some (Throw SyntaxError) =>
        exists res, In res script /\ res_status res < 300 /\ res_status res <> 204
                    /\ res_json res = None
    | Some (Throw _) => False
    | None => Forall (fun res => throttling v (res_status res)) script
    end.
Proof.
  intros v st method path query body retry script. revert retry.
  induction script as [|res script IH]; intros retry; [constructor|].
  destruct (throttled v (res_status res) retry) eqn:T.
  - rewrite (api_throttled _ _ _ _ _ _ _ _ _ T). simpl api_result.
    specialize (IH (S retry)).
    destruct (api_result _) as [[j|[status message|message| |]]|].
    + destruct IH as (r & Hin & H). exists r. split; [right; exact Hin|exact H].
    + destruct IH as (H & r & Hin & H'). split; [exact H|].
      exists r. split; [right; exact Hin|exact H'].
    + exact IH.
    + exact IH.
    + destruct IH as (r & Hin & H). exists r. split; [right; exact Hin|exact H].
    + constructor; [exact (throttled_throttling _ _ _ T)|exact IH].
  - rewrite (api_settled _ _ _ _ _ _ _ _ _ T). simpl api_result.
    destruct (Z.leb_spec 300 (res_status res)).
    + split; [assumption|]. exists res. split; [left; reflexivity|split; reflexivity].
    + destruct (Z.eqb_spec (res_status res) 204).
      * exists res. split; [left; reflexivity|]. split; [assumption|]. left. split; auto.
      * destruct (res_json res) eqn:J.
        -- exists res. split; [left; reflexivity|]. split; [assumption|]. right. split; auto.
        -- exists res. split; [left; reflexivity|]. repeat split; assumption.
Qed.

(** X3: [api] skips throttling responses only, and answers each of them
    with one more request: when it comes back, the script is the skipped
    responses, all with a throttling status, then the deciding response,
    then what is left; the requests are one more than the skipped
    responses.  When it has not come back it has sent one request more
    than there were responses. *)
Theorem X3_api_skips_throttling_only :
  forall v st method path query body retry script,
    let a := api v st method path query body retry script in
    match api_result a with
    | Some _ =>
        exists skipped deciding,
          script = (skipped ++ deciding :: api_rest a)%list
          /\ Forall (fun res => throttling v (res_status res)) skipped
          /\ throttled v (res_status deciding) (retry + length skipped) = false
          /\ length (api_sent a) = S (length skipped)
    | None => length (api_sent a) = S (length script) /\ api_rest a = []
    end.
Proof.
  intros v st method path query body retry script. cbn zeta. revert retry.
  induction script as [|res script IH]; intros retry; [split; reflexivity|].
  destruct (throttled v (res_status res) retry) eqn:T.
  - rewrite (api_throttled _ _ _ _ _ _ _ _ _ T). simpl.
    specialize (IH (S retry)).
    destruct (api_result _).
    + destruct IH as (skipped & deciding & E & F & D & L).
      exists (res :: skipped), deciding. simpl. rewrite <- E.
      split; [reflexivity|].
      split; [constructor; [exact (throttled_throttling _ _ _ T)|exact F]|].
      split; [replace (retry + S (length skipped))%nat
                with (S retry + length skipped)%nat by lia; exact D|].
      rewrite L. reflexivity.
    + destruct IH as [-> ->]. split; reflexivity.
  - rewrite (api_settled _ _ _ _ _ _ _ _ _ T). simpl.
    exists [], res. simpl. rewrite Nat.add_0_r. repeat split; [constructor|exact T].
Qed.

(** X4: in src/unnamed/part_000 a call of [api] sends at most six
    requests, whatever the server answers, and has come back once six
    responses have arrived. *)
Theorem X4_part000_api_bounded :
  forall st method path query body script,
    (length (api_sent (api Part000 st method path query body 0 script)) <= 6)%nat
    /\ forall r1 r2 r3 r4 r5 r6,
         api_result (api Part000 st method path query body 0
                       (r1 :: r2 :: r3 :: r4 :: r5 :: r6 :: script))
         <> None.
Proof.
  intros st method path query body script. split.
  - pose proof (part000_at_most_six st method path query body 0 script). lia.
  - intros. apply part000_terminates; simpl; lia.
Qed.

Lemma index_ts_quiet_bound st method path query body retry script :
  Forall (fun res => res_status res <> 429) script -> (retry <= 5)%nat ->
  (length (api_sent (api IndexTs st method path query body retry script)) + retry <= 6)%nat
  /\ ((6 <= retry + length script)%nat ->
      api_result (api IndexTs st method path query body retry script) <> None).
Proof.
  intros F. revert retry. induction F as [|res script N F IH]; intros retry Hr.
  - simpl. split; [lia|]. intros; lia.
  - destruct (throttled IndexTs (res_status res) retry) eqn:T.
    + rewrite (api_throttled _ _ _ _ _ _ _ _ _ T). simpl.
      assert (retry < 5)%nat as Hlt.
      { simpl in T. apply orb_true_iff in T as [T | T].
        - apply Z.eqb_eq in T. contradiction.
        - apply andb_true_iff in T as [_ T]. apply Nat.ltb_lt in T. exact T. }
      destruct (IH (S retry)) as [IH1 IH2]; [lia|]. split; [lia|].
      intros Hl. apply IH2. lia.
    + rewrite (api_settled _ _ _ _ _ _ _ _ _ T). simpl. split; [lia|discriminate].
Qed.

(** X5: in src/index.ts the bound of six requests holds as long as the
    server never answers 429: the time-outs (408) are retried five times
    at most, the sixth is raised. *)
Theorem X5_index_ts_api_bounded_without_429 :
  forall st method path query body script,
    Forall (fun res => res_status res <> 429) script ->
    (length (api_sent (api IndexTs st method path query body 0 script)) <= 6)%nat
    /\ ((6 <= length script)%nat ->
        api_result (api IndexTs st method path query body 0 script) <> None).
Proof.
  intros st method path query body script F.
  destruct (index_ts_quiet_bound st method path query body 0 script F) as [H1 H2]; [lia|].
  split; [lia|]. intros H. apply H2. simpl. exact H.
Qed.

Lemma X5_witness :
  let timeouts := repeat (mkResponse 408 "timeout" None) 6 in
  (length (api_sent (api IndexTs empty_state GET "my/agent" None JUndefined 0 timeouts))
   <= 6)%nat
  /\ api_result (api IndexTs empty_state GET "my/agent" None JUndefined 0 timeouts)
     <> None.
Proof.
  cbn zeta.
  destruct (X5_index_ts_api_bounded_without_429 empty_state GET "my/agent" None JUndefined
              (repeat (mkResponse 408 "timeout" None) 6)) as [H1 H2].
  - repeat constructor; discriminate.
  - split; [exact H1|]. apply H2. simpl. repeat constructor.
Defined.

(** ** [configure] and the calls that follow *)

(** X6: configuring with a token is local -- no request, the two caches
    as they were -- and from then on every request of every [api] call,
    retries included, carries [Authorization: Bearer <token>]. *)
Theorem X6_token_then_bearer :
  forall v args st script token,
    cfg_token args = Some token -> token <> "" ->
    let r := configure v args st script in
    result r = Some (Return tt) /\ sent r = [] /\ rest r = script
    /\ cachedMarkets (final r) = cachedMarkets st
    /\ cachedJumpGates (final r) = cachedJumpGates st
    /\ forall v' method path query body retry script',
         Forall (fun a => req_auth (snd a) = Some (String.append "Bearer " token))
                (api_sent (api v' (final r) method path query body retry script')).
Proof.
  intros v args st script token E Hne. cbn zeta.
  rewrite (configure_token v args st script token E Hne). simpl.
  repeat split. intros. apply api_attaches_token; [reflexivity|exact Hne].
Qed.

Lemma X6_witness :
  let args := mkConfigureArgs None None (Some "secret") None in
  let r := configure Part000 args (cached market_with_history gate_payload)
             [mkResponse 500 "down" None] in
  result r = Some (Return tt) /\ sent r = []
  /\ Forall (fun a => req_auth (snd a) = Some "Bearer secret")
            (api_sent (api IndexTs (final r) GET "my/agent" None JUndefined 0
                         [mkResponse 429 "" None; ok (JObj [])])).
Proof.
  cbn zeta.
  destruct (X6_token_then_bearer Part000 (mkConfigureArgs None None (Some "secret") None)
              (cached market_with_history gate_payload) [mkResponse 500 "down" None]
              "secret" eq_refl) as (H1 & H2 & _ & _ & _ & H6); [discriminate|].
  split; [exact H1|]. split; [exact H2|]. apply H6.
Defined.

(** X7: what the register branch of [configure] leaves behind.  When
    [api] hands back an object, [configure] returns normally and
    [state.data] is its [data], credential or not: after a 204, or a body
    without [data], there is no credential and the next calls go out
    without an Authorization header, although [configure] did not fail.
    When the body is [null], destructuring it throws a TypeError and the
    credential stays deleted. *)
Theorem X7_register_outcomes :
  forall v args st script symbol faction,
    truthy (of_opt_string (cfg_token args)) = false ->
    cfg_symbol args = Some symbol -> symbol <> "" ->
    cfg_faction args = Some faction -> faction <> "" ->
    (forall j, nullish j = false ->
               let r := configure v args st (ok j :: script) in
               result r = Some (Return tt) /\ data (final r) = opt_chain j "data"
               /\ length (sent r) = 1%nat /\ rest r = script)
    /\ (forall text json,
          let r := configure v args st (mkResponse 204 text json :: script) in
          result r = Some (Return tt) /\ data (final r) = JUndefined
          /\ auth_header (final r) = None)
    /\ (let r := configure v args st (ok JNull :: script) in
        result r = Some (Throw TypeError) /\ data (final r) = JUndefined).
Proof.
  intros v args st script symbol faction Ht Es Hs Ef Hf.
  assert (R : forall script',
             configure v args st script'
             = register v st
                 (match v with
                  | IndexTs => JObj [("symbol", JStr symbol); ("faction", JStr faction);
                                     ("email", of_opt_string (cfg_email args))]
                  | Part000 => JObj [("symbol", JStr symbol); ("faction", JStr faction)]
                  end) script').
  { intros script'. unfold configure. rewrite Ht, Es, Ef. simpl.
    destruct (String.eqb_spec symbol ""); [contradiction|].
    destruct (String.eqb_spec faction ""); [contradiction|].
    destruct v; reflexivity. }
  split; [|split].
  - intros j N. cbn zeta. rewrite R. unfold register. rewrite api_ok.
    unfold after_api, prop. simpl. rewrite N. simpl. repeat split.
  - intros text json. cbn zeta. rewrite R. unfold register.
    rewrite api_settled by (apply success_not_throttled; simpl; lia).
    repeat split.
  - cbn zeta. rewrite R. unfold register. rewrite api_ok. split; reflexivity.
Qed.

Lemma X7_witness :
  let args := mkConfigureArgs (Some "TRADER") (Some "COSMIC") None None in
  let r := configure IndexTs args (with_token "old") [ok (JObj [("error", JStr "x")])] in
  result r = Some (Return tt) /\ data (final r) = JUndefined.
Proof.
  cbn zeta.
  destruct (X7_register_outcomes IndexTs
              (mkConfigureArgs (Some "TRADER") (Some "COSMIC") None None)
              (with_token "old") [] "TRADER" "COSMIC")
    as (H & _); [reflexivity|reflexivity|discriminate|reflexivity|discriminate|].
  destruct (H (JObj [("error", JStr "x")]) eq_refl) as (H1 & H2 & _).
  split; [exact H1|exact H2].
Defined.

(** ** Ship actions *)

Lemma pmatch_word w at_start input k :
  Anchored.pmatch (Anchored.word w) at_start input k = true
  <-> exists rest,
        input = (list_ascii_of_string w ++ rest)%list
        /\ k (match w with EmptyString => at_start | _ => false end) rest = true.
Proof.
  revert at_start input. induction w as [|c w IH]; intros at_start input; simpl.
  - split; [intros H; exists input; split; [reflexivity|exact H]|].
    intros (rest & -> & H). exact H.
  - destruct input as [|x t].
    + split; [discriminate|]. intros (rest & E & _). discriminate.
    + destruct (Ascii.eqb_spec c x) as [->|N].
      * rewrite IH. split.
        -- intros (rest & -> & H). exists rest. split; [reflexivity|].
           destruct w; exact H.
        -- intros (rest & E & H). injection E as ->. exists rest.
           split; [reflexivity|]. destruct w; exact H.
      * split; [discriminate|]. intros (rest & E & _). injection E as E _.
        congruence.
Qed.

Lemma list_ascii_inj (a b : string) :
  list_ascii_of_string a = list_ascii_of_string b -> a = b.
Proof.
  intros H. rewrite <- (string_of_list_ascii_of_string a),
              <- (string_of_list_ascii_of_string b), H. reflexivity.
Qed.

Lemma flight_mode_unanchored_fails input :
  Anchored.test_from Ship.flight_mode_re false input = false.
Proof. induction input as [|c input IH]; simpl; [reflexivity|exact IH]. Qed.

(** The pattern accepts the four modes and nothing else: no prefix, no
    suffix, no other case. *)
Lemma flight_mode_test s :
  Anchored.test Ship.flight_mode_re s = true <-> In s flight_modes.
Proof.
  unfold Anchored.test.
  assert (E : Anchored.test_from Ship.flight_mode_re true (list_ascii_of_string s)
              = Anchored.pmatch Ship.flight_mode_re true (list_ascii_of_string s)
                  (fun _ _ => true)).
  { destruct (list_ascii_of_string s); cbn [Anchored.test_from].
    - apply orb_false_r.
    - rewrite flight_mode_unanchored_fails. apply orb_false_r. }
  rewrite E. unfold Ship.flight_mode_re.
  change (Anchored.pmatch _ true (list_ascii_of_string s) (fun _ _ => true))
    with (let k := fun (st : bool) (rest : list ascii) =>
                     match rest with [] => true | _ :: _ => false end in
          Anchored.pmatch (Anchored.word "CRUISE") true (list_ascii_of_string s) k
          || (Anchored.pmatch (Anchored.word "BURN") true (list_ascii_of_string s) k
              || (Anchored.pmatch (Anchored.word "DRIFT") true (list_ascii_of_string s) k
                  || Anchored.pmatch (Anchored.word "STEALTH") true
                       (list_ascii_of_string s) k))).
  cbn zeta. rewrite !orb_true_iff, !pmatch_word. unfold flight_modes. simpl In.
  assert (W : forall w,
             (exists rest, list_ascii_of_string s = (list_ascii_of_string w ++ rest)%list
                           /\ match rest with [] => true | _ :: _ => false end = true)
             <-> w = s).
  { intros w. split.
    - intros (rest & H & R). destruct rest; [|discriminate].
      rewrite app_nil_r in H. symmetry. apply list_ascii_inj. exact H.
    - intros ->. exists []. rewrite app_nil_r. split; reflexivity. }
  rewrite !W. tauto.
Qed.

(** X8: [setFlightMode] accepts exactly CRUISE, BURN, DRIFT and STEALTH.
    Any other mode is refused with an error before any request and
    without touching the state; an accepted mode is sent as
    [{ flightMode }] with [PATCH my/ships/<symbol>/nav], and nothing
    else is sent. *)
Theorem X8_flight_mode_validation :
  forall v mode self st script,
    (~ In (to_string mode) flight_modes ->
     Ship.setFlightMode v mode self st script
     = mkRun (Some (Throw (Error "Invalid flight mode. Only CRUISE, BURN, DRIFT, STEALTH are available.")))
         st [] script)
    /\ (In (to_string mode) flight_modes ->
        let r := Ship.setFlightMode v mode self st script in
        final r = st /\ sent r <> []
        /\ Forall (fun a =>
                     snd a = mkRequest PATCH (Ship.ship_path self "/nav") (Some [])
                               (JObj [("flightMode", mode)]) (auth_header st))
                  (sent r)).
Proof.
  intros v mode self st script. split.
  - intros H. unfold Ship.setFlightMode.
    destruct (Anchored.test Ship.flight_mode_re (to_string mode)) eqn:T; [|reflexivity].
    apply flight_mode_test in T. contradiction.
  - intros H. cbn zeta. unfold Ship.setFlightMode.
    apply flight_mode_test in H. rewrite H. simpl negb. cbv iota.
    unfold return_data. rewrite after_api_sent.
    split; [|split; [apply api_sent_nonempty|]].
    + unfold after_api. destruct (api_result _) as [[res|e]|]; try reflexivity.
      destruct (prop res "data"); reflexivity.
    + exact (api_sent_requests v st PATCH (Ship.ship_path self "/nav") (Some [])
               (JObj [("flightMode", mode)]) 0 script).
Qed.

Lemma X8_witness :
  let self := mkShipRef "TRADER-1" in
  Ship.setFlightMode IndexTs (JStr "burn") self empty_state [ok (JObj [])]
  = mkRun (Some (Throw (Error "Invalid flight mode. Only CRUISE, BURN, DRIFT, STEALTH are available.")))
      empty_state [] [ok (JObj [])]
  /\ Ship.setFlightMode IndexTs (JStr "BURNING") self empty_state [ok (JObj [])]
     = mkRun (Some (Throw (Error "Invalid flight mode. Only CRUISE, BURN, DRIFT, STEALTH are available.")))
         empty_state [] [ok (JObj [])]
  /\ Forall (fun a =>
               snd a = mkRequest PATCH "my/ships/TRADER-1/nav" (Some [])
                         (JObj [("flightMode", JStr "BURN")]) None)
            (sent (Ship.setFlightMode Part000 (JStr "BURN") self empty_state [ok (JObj [])])).
Proof.
  cbn zeta.
  assert (N : forall s, String.eqb "CRUISE" s = false -> String.eqb "BURN" s = false ->
                        String.eqb "DRIFT" s = false -> String.eqb "STEALTH" s = false ->
                        ~ In s flight_modes).
  { intros s H1 H2 H3 H4 [<-|[<-|[<-|[<-|[]]]]]; discriminate. }
  split.
  - apply (X8_flight_mode_validation IndexTs (JStr "burn")). apply N; reflexivity.
  - split.
    + apply (X8_flight_mode_validation IndexTs (JStr "BURNING")). apply N; reflexivity.
    + apply (X8_flight_mode_validation Part000 (JStr "BURN") (mkShipRef "TRADER-1")
               empty_state [ok (JObj [])]).
      right. left. reflexivity.
Defined.

Lemma return_data_final v st a : final (return_data v st a) = st.
Proof.
  unfold return_data, after_api. destruct (api_result a) as [[res|e]|]; try reflexivity.
  destruct (prop res "data"); reflexivity.
Qed.

Lemma plain_status_not_throttled v status retry :
  status <> 429 -> status <> 408 -> throttled v status retry = false.
Proof.
  intros H1 H2. apply Z.eqb_neq in H1, H2. destruct v; simpl; rewrite H1, ?H2; reflexivity.
Qed.

Lemma return_data_answers v method path query body :
  answers v (fun st script =>
               return_data v st (api v st method path query body 0 script)).
Proof.
  intros st script. split; [|split; [|split]].
  - intros text json. rewrite api_settled by (apply success_not_throttled; simpl; lia).
    reflexivity.
  - rewrite api_ok. reflexivity.
  - intros j N. rewrite api_ok. unfold return_data, after_api, prop. simpl.
    rewrite N. reflexivity.
  - intros status text json H3 H1 H2. cbn zeta.
    rewrite api_settled by (apply plain_status_not_throttled; assumption).
    simpl res_status. destruct (Z.leb_spec 300 status); [|lia]. repeat split.
Qed.

Lemma invoke_shape v c self :
  exists verb query body,
    (query = None \/ query = Some [] \/ query = Some [("shipSymbol", JStr (ship_symbol self))])
    /\ forall st script,
         Ship.invoke v c self st script
         = return_data v st
             (api v st POST
                (String.append "my/ships/"
                   (String.append (ship_symbol self) (String "/" verb)))
                query body 0 script).
Proof.
  destruct c; simpl;
    unfold Ship.orbit, Ship.dock, Ship.negotiateContract, Ship.refuel, Ship.refine,
      Ship.scanShips, Ship.scanSystems, Ship.scanWaypoints, Ship.chart, Ship.purchase,
      Ship.jettison, Ship.installMount, Ship.warp, Ship.jump, Ship.survey, Ship.sell,
      Ship.post, Ship.ship_path, Ship.self_query;
    do 3 eexists; (split; [|intros st script; reflexivity]); auto.
Qed.

Lemma addresses_ship_return_data v self st verb query body script :
  (query = None \/ query = Some [] \/ query = Some [("shipSymbol", JStr (ship_symbol self))]) ->
  addresses_ship self st
    (return_data v st
       (api v st POST
          (String.append "my/ships/" (String.append (ship_symbol self) (String "/" verb)))
          query body 0 script)).
Proof.
  intros Q. split; [apply return_data_final|]. rewrite return_data_sent.
  split; [apply api_sent_nonempty|].
  exists verb, query, body. split; [exact Q|].
  assert (D : option_map drop_undefined query = query).
  { destruct Q as [->|[->| ->]]; reflexivity. }
  eapply List.Forall_impl; [|apply api_sent_requests].
  intros a ->. unfold build_request. rewrite D. reflexivity.
Qed.

(** X9: the actions that post to a ship -- orbit, dock,
    negotiateContract, refuel, refine, the three scans, chart, purchase,
    jettison, installMount, warp, jump, survey, sell and, in
    src/index.ts, transferCargo -- never change the state (credential
    and caches), and everything they send is one POST request to a path
    under [my/ships/<symbol of self>/], carrying the stored credential;
    the ship's own symbol is the only query parameter they ever send. *)
Theorem X9_ship_actions_address_their_ship :
  forall v self st script,
    (forall c, addresses_ship self st (Ship.invoke v c self st script))
    /\ (forall tradeSymbol units shipSymbol,
          addresses_ship self st
            (Ship.transferCargo tradeSymbol units shipSymbol self st script)).
Proof.
  intros v self st script. split.
  - intros c. destruct (invoke_shape v c self) as (verb & query & body & Q & E).
    rewrite E. apply addresses_ship_return_data. exact Q.
  - intros. unfold Ship.transferCargo, Ship.post, Ship.ship_path.
    apply (addresses_ship_return_data IndexTs self st "transfer"). auto.
Qed.

(** X10: how the posting actions of a ship, and the accept and fulfill
    actions of a contract, answer the first response that is not
    throttled.  A 204 makes them return [undefined] ([res.data] of the
    empty object); a JSON body [null] makes them throw a TypeError; any
    other JSON body gives its [data], present or not; a status from 300
    on, other than the throttling ones, is raised as the ApiError with
    that status and the body text, after a single request and with the
    state as it was. *)
Theorem X10_actions_answer :
  forall v,
    (forall c self, answers v (Ship.invoke v c self))
    /\ (forall contract, answers v (Contract.accept v contract))
    /\ (forall contract, answers v (Contract.fulfill v contract)).
Proof.
  intros v. split; [|split].
  - intros c self. destruct (invoke_shape v c self) as (verb & query & body & _ & E).
    intros st script.
    destruct (return_data_answers v POST
                (String.append "my/ships/"
                   (String.append (ship_symbol self) (String "/" verb)))
                query body st script) as (A1 & A2 & A3 & A4).
    split; [|split; [|split]].
    + intros. rewrite E. apply A1.
    + rewrite E. exact A2.
    + intros. rewrite E. apply A3. assumption.
    + intros status text json H3 H1 H2. cbn zeta. rewrite E. apply A4; assumption.
  - intros contract. apply return_data_answers.
  - intros contract. apply return_data_answers.
Qed.

Lemma X10_witness :
  let self := mkShipRef "TRADER-1" in
  result (Ship.invoke IndexTs Ship.Dock self empty_state
            [ok (JObj [("data", JObj [("nav", JStr "DOCKED")])])])
  = Some (Return (Plain (JObj [("nav", JStr "DOCKED")])))
  /\ result (Ship.invoke Part000 (Ship.Sell (JStr "IRON_ORE") (JNum 5)) self empty_state
               [mkResponse 400 "cargo missing" None])
     = Some (Throw (ApiError 400 "cargo missing"))
  /\ result (Contract.accept Part000 (mkContractRef "c1") empty_state [ok (JObj [])])
     = Some (Return (Stringified JUndefined)).
Proof.
  cbn zeta.
  destruct (X10_actions_answer IndexTs) as (I & _).
  destruct (X10_actions_answer Part000) as (P & A & _).
  split; [|split].
  - destruct (I Ship.Dock (mkShipRef "TRADER-1") empty_state []) as (_ & _ & H & _).
    apply (H (JObj [("data", JObj [("nav", JStr "DOCKED")])])). reflexivity.
  - destruct (P (Ship.Sell (JStr "IRON_ORE") (JNum 5)) (mkShipRef "TRADER-1")
                empty_state []) as (_ & _ & _ & H).
    apply (H 400 "cargo missing" None); [lia|discriminate|discriminate].
  - destruct (A (mkContractRef "c1") empty_state []) as (_ & _ & H & _).
    apply (H (JObj [])). reflexivity.
Defined.

(** X11: when [navigate] is answered with a JSON body, it sends one
    request whose body names the destination -- the symbol of the
    reference when one is given, the symbol argument otherwise -- and it
    schedules the arrival callback exactly when the body has a truthy
    [data.nav.route.arrival]; the callback will emit that same
    destination.  After a 204 nothing is scheduled. *)
Theorem X11_navigate_schedules_arrival :
  forall v args self st script,
    bool_decide (is_Some (Ship.waypoint args))
    && truthy (of_opt_string (Ship.waypointSymbol args)) = false ->
    let destination :=
      match Ship.waypoint args with
      | Some w => JStr (wp_symbol w)
      | None => of_opt_string (Ship.waypointSymbol args)
      end in
    (forall j, nullish j = false ->
       let r := Ship.navigate v args self st (ok j :: script) in
       let arrival :=
         opt_chain (opt_chain (opt_chain (opt_chain j "data") "nav") "route") "arrival" in
       sent r = [(0%nat, mkRequest POST (Ship.ship_path self "/navigate") (Some [])
                           (JObj [("waypointSymbol", destination)]) (auth_header st))]
       /\ result r
          = Some (Return (Ship.mkNavigated (returned v (opt_chain j "data"))
                            (if truthy arrival
                             then Some (arrival, Ship.handleArrival destination)
                             else None))))
    /\ (forall text json,
          result (Ship.navigate v args self st (mkResponse 204 text json :: script))
          = Some (Return (Ship.mkNavigated (returned v JUndefined) None))).
Proof.
  intros v args self st script G. cbn zeta. split.
  - intros j N. unfold Ship.navigate. rewrite G, api_ok.
    unfold after_api, prop. simpl. rewrite N. split; reflexivity.
  - intros text json. unfold Ship.navigate. rewrite G.
    rewrite api_settled by (apply success_not_throttled; simpl; lia). reflexivity.
Qed.

Lemma X11_witness :
  let there := mkWaypointRef "X1-AB12" "X1-AB12-XYZ" in
  let moving := JObj [("data", JObj [("nav", JObj [("route",
                  JObj [("arrival", JStr "2023-06-01T00:00:00.000Z")])])])] in
  exists value,
    result (Ship.navigate IndexTs (Ship.mkNavigateArgs (Some there) (Some ""))
              (mkShipRef "TRADER-1") empty_state [ok moving])
    = Some (Return (Ship.mkNavigated value
                      (Some (JStr "2023-06-01T00:00:00.000Z", JStr "X1-AB12-XYZ")))).
Proof.
  cbn zeta. eexists.
  destruct (X11_navigate_schedules_arrival IndexTs
              (Ship.mkNavigateArgs (Some (mkWaypointRef "X1-AB12" "X1-AB12-XYZ")) (Some ""))
              (mkShipRef "TRADER-1") empty_state [] eq_refl) as [H _].
  destruct (H (JObj [("data", JObj [("nav", JObj [("route",
                JObj [("arrival", JStr "2023-06-01T00:00:00.000Z")])])])]) eq_refl)
    as [_ R].
  exact R.
Defined.

(** X12: without a reference the symbol argument goes into the body as
    it is, and when it is missing too the request is sent all the same,
    with an undefined symbol: neither [deliver] nor
    [ShipCollection.purchase] nor [navigate] checks that one of the two
    was given.  [deliver] forwards its other arguments unchanged. *)
Theorem X12_symbol_forwarded_unchecked :
  forall v st script,
    (forall args self,
        Contract.ship args = None ->
        hd_error (sent (Contract.deliver v args self st script))
        = Some (0%nat,
                mkRequest POST
                  (String.append "my/contracts/"
                     (String.append (contract_id self) "/deliver"))
                  (Some [])
                  (JObj (("shipSymbol", of_opt_string (Contract.shipSymbol args))
                         :: ("ship", JUndefined) :: Contract.others args))
                  (auth_header st)))
    /\ (forall args,
          ShipCollection.waypoint args = None ->
          hd_error (sent (ShipCollection.purchase v args st script))
          = Some (0%nat,
                  mkRequest POST "my/ships" (Some [])
                    (JObj [("shipType", of_opt_string (ShipCollection.shipType args));
                           ("waypointSymbol",
                            of_opt_string (ShipCollection.waypointSymbol args))])
                    (auth_header st)))
    /\ (forall args self,
          Ship.waypoint args = None ->
          hd_error (sent (Ship.navigate v args self st script))
          = Some (0%nat,
                  mkRequest POST (Ship.ship_path self "/navigate") (Some [])
                    (JObj [("waypointSymbol", of_opt_string (Ship.waypointSymbol args))])
                    (auth_header st))).
Proof.
  intros v st script. split; [|split].
  - intros args self E. unfold Contract.deliver. rewrite E, andb_false_r.
    rewrite return_data_sent. apply api_sent_head.
  - intros args E. unfold ShipCollection.purchase. rewrite E. simpl andb. cbv iota.
    rewrite return_data_sent. apply api_sent_head.
  - intros args self E. unfold Ship.navigate. rewrite E. simpl andb. cbv iota.
    rewrite after_api_sent. apply api_sent_head.
Qed.

Lemma X12_witness :
  hd_error (sent (Ship.navigate IndexTs (Ship.mkNavigateArgs None None)
                    (mkShipRef "TRADER-1") empty_state []))
  = Some (0%nat, mkRequest POST "my/ships/TRADER-1/navigate" (Some [])
                   (JObj [("waypointSymbol", JUndefined)]) None)
  /\ hd_error (sent (Contract.deliver Part000
                       (Contract.mkDeliverArgs (Some "TRADER-1") None
                          [("tradeSymbol", JStr "IRON_ORE"); ("units", JNum 10)])
                       (mkContractRef "c1") empty_state []))
     = Some (0%nat, mkRequest POST "my/contracts/c1/deliver" (Some [])
                      (JObj [("shipSymbol", JStr "TRADER-1"); ("ship", JUndefined);
                             ("tradeSymbol", JStr "IRON_ORE"); ("units", JNum 10)])
                      None).
Proof.
  destruct (X12_symbol_forwarded_unchecked IndexTs empty_state []) as (_ & _ & N).
  destruct (X12_symbol_forwarded_unchecked Part000 empty_state []) as (D & _).
  split.
  - apply (N (Ship.mkNavigateArgs None None) (mkShipRef "TRADER-1")). reflexivity.
  - apply (D (Contract.mkDeliverArgs (Some "TRADER-1") None
                [("tradeSymbol", JStr "IRON_ORE"); ("units", JNum 10)])
             (mkContractRef "c1")). reflexivity.
Defined.

(** ** [Root.status] and the [one] operations *)

(** X13: [status] sends one [GET my/agent] and leaves the state alone.
    It answers ["Not ready"] when the response has no truthy [data] (a
    204, a body without [data]); otherwise it joins the agent's [symbol]
    and [credits] with [": "], as they print -- for an agent object
    without these fields that is ["undefined: undefined"], not
    ["Not ready"]. *)
Theorem X13_status_text :
  forall v st script,
    (forall text json,
        Root.status v st (mkResponse 204 text json :: script)
        = mkRun (Some (Return "Not ready")) st
            [(0%nat, build_request st GET "my/agent" None JUndefined)] script)
    /\ (forall j, nullish j = false -> truthy (opt_chain j "data") = false ->
          Root.status v st (ok j :: script)
          = mkRun (Some (Return "Not ready")) st
              [(0%nat, build_request st GET "my/agent" None JUndefined)] script)
    /\ (forall j, nullish j = false -> truthy (opt_chain j "data") = true ->
          Root.status v st (ok j :: script)
          = mkRun (Some (Return
                           (String.append (to_string (opt_chain (opt_chain j "data") "symbol"))
                              (String.append ": "
                                 (to_string (opt_chain (opt_chain j "data") "credits"))))))
              st [(0%nat, build_request st GET "my/agent" None JUndefined)] script)
    /\ result (Root.status v st (ok (JObj [("data", JObj [])]) :: script))
       = Some (Return "undefined: undefined").
Proof.
  intros v st script. split; [|split; [|split]].
  - intros text json. unfold Root.status.
    rewrite api_settled by (apply success_not_throttled; simpl; lia). reflexivity.
  - intros j N T. unfold Root.status. rewrite api_ok. unfold after_api, prop. simpl.
    rewrite N, T. reflexivity.
  - intros j N T. unfold Root.status. rewrite api_ok. unfold after_api, prop. simpl.
    rewrite N, T. reflexivity.
  - unfold Root.status. rewrite api_ok. reflexivity.
Qed.

Lemma X13_witness :
  result (Root.status IndexTs empty_state
            [ok (JObj [("data", JObj [("symbol", JStr "TRADER"); ("credits", JNum 175000)])])])
  = Some (Return "TRADER: 175000")
  /\ result (Root.status Part000 empty_state [ok (JObj [("data", JNull)])])
     = Some (Return "Not ready").
Proof.
  destruct (X13_status_text IndexTs empty_state []) as (_ & _ & H & _).
  destruct (X13_status_text Part000 empty_state []) as (_ & N & _).
  split.
  - rewrite (H (JObj [("data", JObj [("symbol", JStr "TRADER"); ("credits", JNum 175000)])])
               eq_refl eq_refl).
    vm_compute. reflexivity.
  - rewrite (N (JObj [("data", JNull)]) eq_refl eq_refl). reflexivity.
Defined.

Lemma system_of_addressed ctx : to_string (system_of ctx) = addressed_system ctx.
Proof.
  unfold system_of, addressed_system, or_else.
  destruct (self_system ctx) as [[|c s]|]; simpl;
    destruct (context_systemSymbol ctx); reflexivity.
Qed.

(** X14: every waypoint operation addresses the system named in [self]
    when that is a non-empty string, else [context.systemSymbol], and,
    when both are missing, builds its path with the text ["undefined"]
    and sends the request all the same.  So do [WaypointCollection.one]
    and [page], and the shipyard, market and jumpGate paths. *)
Theorem X14_waypoint_system_resolution :
  forall v ctx st script,
    (forall symbol,
        hd_error (sent (WaypointCollection.one v ctx symbol st script))
        = Some (0%nat,
                build_request st GET
                  (String.append "systems/"
                     (String.append (addressed_system ctx)
                        (String.append "/waypoints/" symbol)))
                  None JUndefined))
    /\ (forall args,
          hd_error (sent (WaypointCollection.page v ctx args st script))
          = Some (0%nat,
                  build_request st GET
                    (String.append "systems/"
                       (String.append (addressed_system ctx) "/waypoints"))
                    (page_query args) JUndefined))
    /\ (forall obj leaf,
          waypoint_path ctx obj leaf
          = String.append "systems/"
              (String.append (addressed_system ctx)
                 (String.append "/waypoints/"
                    (String.append (to_string (waypoint_of ctx obj)) leaf)))).
Proof.
  intros v ctx st script. split; [|split].
  - intros symbol. unfold WaypointCollection.one, fetch_data.
    rewrite after_api_sent, api_sent_head, system_of_addressed. reflexivity.
  - intros args. unfold WaypointCollection.page, page_by_meta.
    rewrite after_api_sent, api_sent_head, system_of_addressed. reflexivity.
  - intros obj leaf. unfold waypoint_path. rewrite system_of_addressed. reflexivity.
Qed.

(** ** Pages: responses without [meta] *)


Lemma has_next_undefined_total page limit : has_next JUndefined page limit = false.
Proof. reflexivity. Qed.




(** ** The caches: what is written, and what is read back *)

(** X16: state changes of the three waypoint sub-resource operations.
    [shipyard] never changes the state.  [market] and [jumpGate] change it
    in one way only: when they return a fetched payload, that payload has
    been written under the waypoint's key in their own cache; the
    credential, the other cache and every other key are as before.  On
    every other outcome -- cache hit, [null], an error, no answer yet --
    the state is untouched. *)
Theorem X16_cache_writes :
  forall v ctx obj st script,
    let w := to_string (waypoint_of ctx obj) in
    final (Waypoint.shipyard v ctx obj st script) = st
    /\ (final (Waypoint.market v ctx obj st script) = st
        \/ exists d, result (Waypoint.market v ctx obj st script) = Some (Return d)
                     /\ final (Waypoint.market v ctx obj st script)
                        = mkState (data st) (<[w := d]> (cachedMarkets st))
                            (cachedJumpGates st))
    /\ (final (Waypoint.jumpGate v ctx obj st script) = st
        \/ exists d, result (Waypoint.jumpGate v ctx obj st script) = Some (Return d)
                     /\ final (Waypoint.jumpGate v ctx obj st script)
                        = mkState (data st) (cachedMarkets st)
                            (<[w := d]> (cachedJumpGates st))).
Proof.
  intros v ctx obj st script. cbn zeta.
  assert (F : forall notFound store a,
             final (fetch_or_null notFound store st a) = st
             \/ exists d, result (fetch_or_null notFound store st a) = Some (Return d)
                          /\ final (fetch_or_null notFound store st a) = store st d).
  { intros notFound store a. unfold fetch_or_null.
    destruct (api_result a) as [[res|[status message|message| |]]|]; auto.
    - destruct (prop res "data") as [d|e]; [|auto]. right. exists d. split; reflexivity.
    - destruct (status =? notFound); auto. }
  split; [|split].
  - unfold Waypoint.shipyard.
    destruct (no_trait v "SHIPYARD" obj) as [[|]|e]; try reflexivity.
    destruct (F 404 (fun st _ => st)
                (api v st GET (waypoint_path ctx obj "/shipyard") None JUndefined 0 script))
      as [H|(d & _ & H)]; exact H.
  - unfold Waypoint.market. destruct (truthy _); [left; reflexivity|].
    destruct (no_trait v "MARKETPLACE" obj) as [[|]|e]; try (left; reflexivity).
    apply F.
  - unfold Waypoint.jumpGate. destruct (truthy _); [left; reflexivity|].
    destruct (negb _); [left; reflexivity|]. apply F.
Qed.

(** X17: a market that was fetched with its transaction history is kept.
    When the resolver fetches (no usable entry, guard passed) and the
    payload has a truthy [transactions], that payload is returned, and
    from the state it leaves every later call for the same key -- any
    [obj], any traits, either file -- returns it again without a
    request. *)
Theorem X17_market_fetched_then_served :
  forall v ctx obj st j script,
    let w := to_string (waypoint_of ctx obj) in
    truthy (opt_chain (cache_get (cachedMarkets st) w) "transactions") = false ->
    passes_guard v "MARKETPLACE" obj ->
    nullish j = false ->
    truthy (opt_chain (opt_chain j "data") "transactions") = true ->
    let first := Waypoint.market v ctx obj st (ok j :: script) in
    result first = Some (Return (opt_chain j "data"))
    /\ length (sent first) = 1%nat
    /\ forall v' ctx' obj' script',
         to_string (waypoint_of ctx' obj') = w ->
         Waypoint.market v' ctx' obj' (final first) script'
         = mkRun (Some (Return (opt_chain j "data"))) (final first) [] script'.
Proof.
  intros v ctx obj st j script. cbn zeta. intros M G N T.
  assert (E : Waypoint.market v ctx obj st (ok j :: script)
              = mkRun (Some (Return (opt_chain j "data")))
                  (set_cachedMarkets st (to_string (waypoint_of ctx obj)) (opt_chain j "data"))
                  [(0%nat, build_request st GET (waypoint_path ctx obj "/market")
                             None JUndefined)] script).
  { unfold Waypoint.market. rewrite M, (passes_guard_no_trait _ _ _ G), api_ok.
    unfold fetch_or_null, prop. simpl. rewrite N. reflexivity. }
  rewrite E. simpl. split; [reflexivity|]. split; [reflexivity|].
  intros v' ctx' obj' script' K. unfold Waypoint.market. rewrite K.
  unfold set_cachedMarkets, cache_get. simpl. rewrite lookup_insert_eq. simpl.
  rewrite T. reflexivity.
Qed.

Lemma X17_witness :
  let no_list := mkWaypointObj (Some "X1-AB12-XYZ") (Some "PLANET") None in
  let first := Waypoint.market IndexTs in_system no_list
                 (cached market_without_history JNull)
                 [ok (JObj [("data", market_with_history)])] in
  result first = Some (Return market_with_history)
  /\ result (Waypoint.market Part000 (mkCtx None (Some "X1-AB12-XYZ") None)
               (mkWaypointObj None None (Some [])) (final first)
               [mkResponse 500 "down" None])
     = Some (Return market_with_history).
Proof.
  cbn zeta.
  destruct (X17_market_fetched_then_served IndexTs in_system
              (mkWaypointObj (Some "X1-AB12-XYZ") (Some "PLANET") None)
              (cached market_without_history JNull)
              (JObj [("data", market_with_history)]) [])
    as (H1 & _ & H3); [vm_compute; reflexivity|left; reflexivity|reflexivity|reflexivity|].
  split; [exact H1|].
  rewrite (H3 Part000 (mkCtx None (Some "X1-AB12-XYZ") None)
             (mkWaypointObj None None (Some [])) [mkResponse 500 "down" None] eq_refl).
  reflexivity.
Defined.

(** X18: a jump gate that was fetched is kept.  When the resolver
    fetches (no truthy entry, type JUMP_GATE) and [res.data] is truthy,
    it is returned, and from the state it leaves every later call for the
    same key returns it again without a request, whatever [obj.type] then
    is.  A payload without [data] is written too, but is not served: the
    next call for a jump gate sends its request again. *)
Theorem X18_gate_fetched_then_served :
  forall v ctx obj st j script,
    let w := to_string (waypoint_of ctx obj) in
    truthy (cache_get (cachedJumpGates st) w) = false ->
    obj_type obj = Some "JUMP_GATE" ->
    nullish j = false ->
    let first := Waypoint.jumpGate v ctx obj st (ok j :: script) in
    result first = Some (Return (opt_chain j "data"))
    /\ cachedJumpGates (final first) !! w = Some (opt_chain j "data")
    /\ (truthy (opt_chain j "data") = true ->
        forall v' ctx' obj' script',
          to_string (waypoint_of ctx' obj') = w ->
          Waypoint.jumpGate v' ctx' obj' (final first) script'
          = mkRun (Some (Return (opt_chain j "data"))) (final first) [] script')
    /\ (truthy (opt_chain j "data") = false ->
        forall v' script',
          sent (Waypoint.jumpGate v' ctx obj (final first) script') <> []).
Proof.
  intros v ctx obj st j script. cbn zeta. intros M Ty N.
  assert (E : Waypoint.jumpGate v ctx obj st (ok j :: script)
              = mkRun (Some (Return (opt_chain j "data")))
                  (set_cachedJumpGates st (to_string (waypoint_of ctx obj))
                     (opt_chain j "data"))
                  [(0%nat, build_request st GET (waypoint_path ctx obj "/jump-gate")
                             None JUndefined)] script).
  { unfold Waypoint.jumpGate. rewrite M, Ty, api_ok. simpl.
    unfold fetch_or_null, prop. simpl. rewrite N. reflexivity. }
  rewrite E. simpl. split; [reflexivity|]. split; [apply lookup_insert_eq|]. split.
  - intros T v' ctx' obj' script' K. unfold Waypoint.jumpGate. rewrite K.
    unfold set_cachedJumpGates, cache_get. simpl. rewrite lookup_insert_eq. simpl.
    rewrite T. reflexivity.
  - intros T v' script'. unfold Waypoint.jumpGate.
    unfold set_cachedJumpGates, cache_get. simpl. rewrite lookup_insert_eq. simpl.
    rewrite T, Ty. simpl. rewrite fetch_or_null_sent. apply api_sent_nonempty.
Qed.

Lemma X18_witness :
  let first := Waypoint.jumpGate Part000 in_system gate empty_state
                 [ok (JObj [("data", gate_payload)])] in
  result first = Some (Return gate_payload)
  /\ Waypoint.jumpGate IndexTs in_system planet (final first) []
     = mkRun (Some (Return gate_payload)) (final first) [] [].
Proof.
  cbn zeta.
  destruct (X18_gate_fetched_then_served Part000 in_system gate empty_state
              (JObj [("data", gate_payload)]) [])
    as (H1 & _ & H3 & _); [reflexivity|reflexivity|reflexivity|].
  split; [exact H1|]. apply (H3 eq_refl IndexTs in_system planet []). reflexivity.
Defined.

(** X19 (src/index.ts): whenever the waypoint object carries a trait
    list, [shipyard] returns [null] without a request, and so does
    [market] unless its cache has an entry with transactions -- also when
    the list holds SHIPYARD or MARKETPLACE: the callback of [every] reads
    the index, not the trait. *)
Theorem X19_index_ts_trait_list_blocks_fetch :
  forall ctx obj traits st script,
    obj_traits obj = Some traits ->
    Waypoint.shipyard IndexTs ctx obj st script = mkRun (Some (Return JNull)) st [] script
    /\ (truthy (opt_chain (cache_get (cachedMarkets st) (to_string (waypoint_of ctx obj)))
                  "transactions") = false ->
        Waypoint.market IndexTs ctx obj st script = mkRun (Some (Return JNull)) st [] script).
Proof.
  intros ctx obj traits st script E. split.
  - unfold Waypoint.shipyard. rewrite (index_ts_guard_ignores_traits _ _ _ E). reflexivity.
  - intros M. unfold Waypoint.market.
    rewrite M, (index_ts_guard_ignores_traits _ _ _ E). reflexivity.
Qed.

Lemma X19_witness :
  let yard := mkWaypointObj (Some "X1-AB12-XYZ") (Some "PLANET")
                (Some [trait "SHIPYARD"; trait "MARKETPLACE"]) in
  let answer := [ok (JObj [("data", JObj [("shipTypes", JArr [])])])] in
  Waypoint.shipyard IndexTs in_system yard empty_state answer
  = mkRun (Some (Return JNull)) empty_state [] answer
  /\ Waypoint.market IndexTs in_system yard empty_state answer
     = mkRun (Some (Return JNull)) empty_state [] answer.
Proof.
  cbn zeta.
  destruct (X19_index_ts_trait_list_blocks_fetch in_system
              (mkWaypointObj (Some "X1-AB12-XYZ") (Some "PLANET")
                 (Some [trait "SHIPYARD"; trait "MARKETPLACE"]))
              [trait "SHIPYARD"; trait "MARKETPLACE"] empty_state
              [ok (JObj [("data", JObj [("shipTypes", JArr [])])])] eq_refl) as [S M].
  split; [exact S|apply M; reflexivity].
Defined.

(** ** [Root.parse]: what is returned, and how much is taken *)

Lemma search_here ignoreCase r input caps :
  rmatch ignoreCase r input [] (fun _ caps => Some caps) = Some caps ->
  search ignoreCase r input = Some caps.
Proof. intros H. destruct input; simpl; rewrite H; reflexivity. Qed.

(** X20: for the names [system] and [waypoint], [parse] never returns
    the empty list: either the input has no match and the call throws a
    TypeError, or the result is exactly one reference.  Its symbol is a
    piece of the input as it was typed (case kept): for a system, six or
    seven characters; for a waypoint, a system part of six or seven
    characters followed by four to seven more, the system of the
    reference being that system part. *)
Theorem X20_parse_one_reference_or_throws :
  forall value,
    (Root.parse "system" value = Throw TypeError
     \/ exists skipped symbol rest,
          list_ascii_of_string value = (skipped ++ symbol ++ rest)%list
          /\ (6 <= length symbol <= 7)%nat
          /\ Root.parse "system" value = Return [SystemsOne (string_of_list_ascii symbol)])
    /\ (Root.parse "waypoint" value = Throw TypeError
        \/ exists skipped system tail rest,
             list_ascii_of_string value = (skipped ++ (system ++ tail) ++ rest)%list
             /\ (6 <= length system <= 7)%nat /\ (4 <= length tail <= 7)%nat
             /\ Root.parse "waypoint" value
                = Return [WaypointsOne
                            (mkWaypointRef (string_of_list_ascii system)
                               (string_of_list_ascii (system ++ tail)%list))]).
Proof.
  intros value. split.
  - destruct (Regex.js_match true Root.system_re value) as [caps|] eqn:E.
    + right. exact (parse_system_matched value caps E).
    + left. exact (parse_system_no_match value E).
  - destruct (Regex.js_match true Root.waypoint_re value) as [caps|] eqn:E.
    + right. exact (parse_waypoint_matched value caps E).
    + left. exact (parse_waypoint_no_match value E).
Qed.

(** X21: the system pattern is greedy.  After a leading [X1-] it takes
    four characters whenever four that are not line terminators follow,
    so a three-character system followed by ["-"] is parsed with the
    dash; it takes three only when the input ends there. *)
Theorem X21_system_pattern_is_greedy :
  forall a b c,
    is_line_terminator a = false -> is_line_terminator b = false ->
    is_line_terminator c = false ->
    (forall d rest,
        is_line_terminator d = false ->
        Root.parse "system"
          (String "X" (String "1" (String "-"
             (String a (String b (String c (String d rest)))))))
        = Return [SystemsOne
                    (String "X" (String "1" (String "-"
                       (String a (String b (String c (String d EmptyString)))))))])
    /\ Root.parse "system"
         (String "X" (String "1" (String "-"
            (String a (String b (String c EmptyString))))))
       = Return [SystemsOne
                   (String "X" (String "1" (String "-"
                      (String a (String b (String c EmptyString))))))].
Proof.
  intros a b c Ha Hb Hc. split.
  - intros d rest Hd. unfold Root.parse. simpl String.eqb. cbv iota.
    unfold js_match. simpl list_ascii_of_string.
    change ("X"%char :: "1"%char :: "-"%char :: a :: b :: c :: d
              :: list_ascii_of_string rest)
      with (["X"%char; "1"%char; "-"%char; a; b; c; d] ++ list_ascii_of_string rest)%list.
    rewrite (search_here true Root.system_re _
               [(1%nat, firstn
                          (length (["X"%char; "1"%char; "-"%char; a; b; c; d]
                                   ++ list_ascii_of_string rest)%list
                           - length (list_ascii_of_string rest))
                          (["X"%char; "1"%char; "-"%char; a; b; c; d]
                           ++ list_ascii_of_string rest)%list)]).
    + rewrite firstn_consumed. reflexivity.
    + cbn. rewrite Ha. cbn. rewrite Hb. cbn. rewrite Hc. cbn. rewrite Hd. reflexivity.
  - unfold Root.parse. simpl String.eqb. cbv iota.
    unfold js_match. simpl list_ascii_of_string.
    rewrite (search_here true Root.system_re _
               [(1%nat, ["X"%char; "1"%char; "-"%char; a; b; c])]).
    + reflexivity.
    + cbn. rewrite Ha. cbn. rewrite Hb. cbn. rewrite Hc. reflexivity.
Qed.

Lemma X21_witness :
  Root.parse "system" "X1-ABC-XYZ" = Return [SystemsOne "X1-ABC-"]
  /\ Root.parse "system" "X1-ABC" = Return [SystemsOne "X1-ABC"].
Proof.
  destruct (X21_system_pattern_is_greedy "A" "B" "C" eq_refl eq_refl eq_refl) as [G E].
  split; [exact (G "-"%char "XYZ" eq_refl)|exact E].
Defined.

(** ** [shouldFetch] *)

(** X22: [shouldFetch] looks at the union of the selections of all field
    nodes: an empty selection never asks for a fetch, the answer for two
    lists of field nodes put together is the disjunction of the answers,
    and naming more simple fields can only turn a fetch off. *)
Theorem X22_shouldFetch_algebra :
  forall nodes nodes' simpleFields,
    shouldFetch (mkResolverInfo []) simpleFields = false
    /\ shouldFetch (mkResolverInfo [mkFieldNode []]) simpleFields = false
    /\ shouldFetch (mkResolverInfo (nodes ++ nodes')) simpleFields
       = shouldFetch (mkResolverInfo nodes) simpleFields
         || shouldFetch (mkResolverInfo nodes') simpleFields
    /\ forall more,
         shouldFetch (mkResolverInfo nodes) (simpleFields ++ more) = true ->
         shouldFetch (mkResolverInfo nodes) simpleFields = true.
Proof.
  intros nodes nodes' simpleFields.
  split; [reflexivity|]. split; [reflexivity|]. split.
  - unfold shouldFetch. simpl. rewrite flat_map_app, existsb_app. reflexivity.
  - intros more H. apply shouldFetch_spec in H as (value & Hin & Hn).
    apply shouldFetch_spec. exists value. split; [exact Hin|].
    intros C. apply Hn. apply in_or_app. left. exact C.
Qed.

Lemma X22_witness :
  shouldFetch (select ["symbol"; "type"]) ["symbol"] = true.
Proof.
  destruct (X22_shouldFetch_algebra [mkFieldNode ["symbol"; "type"]] [] ["symbol"])
    as (_ & _ & _ & H).
  apply (H ["waypoints"]). reflexivity.
Defined.

(** ** The [one] operations *)

Lemma fetch_data_reads v path : reads path (fun st script => fetch_data v st path script).
Proof.
  intros st script. unfold fetch_data. rewrite after_api_sent.
  split; [|split; [apply api_sent_nonempty|split; [|split]]].
  - unfold after_api. destruct (api_result _) as [[res|e]|]; try reflexivity.
    destruct (prop res "data"); reflexivity.
  - exact (api_sent_requests v st GET path None JUndefined 0 script).
  - intros j N. rewrite api_ok. unfold after_api, prop. simpl. rewrite N. reflexivity.
  - intros text json.
    rewrite api_settled by (apply plain_status_not_throttled; discriminate). reflexivity.
Qed.

(** X23: the [one] operations of factions, contracts, ships and
    waypoints always go to the server -- unlike [SystemCollection.one]
    they have no local answer -- with a [GET] of the collection path
    followed by the identifier as it was given; they never change the
    state, return [res.data] unchanged in both files, and raise a 404 as
    an ApiError (only the shipyard, market and jumpGate operations turn
    "not found" into [null]). *)
Theorem X23_one_operations_read :
  forall v,
    (forall symbol, reads (String.append "factions/" symbol) (FactionCollection.one v symbol))
    /\ (forall id, reads (String.append "my/contracts/" id) (ContractCollection.one v id))
    /\ (forall symbol, reads (String.append "my/ships/" symbol) (ShipCollection.one v symbol))
    /\ (forall ctx symbol,
          reads (String.append "systems/"
                   (String.append (addressed_system ctx)
                      (String.append "/waypoints/" symbol)))
                (WaypointCollection.one v ctx symbol)).
Proof.
  intros v. split; [|split; [|split]].
  - intros symbol. apply fetch_data_reads.
  - intros id. apply fetch_data_reads.
  - intros symbol. apply fetch_data_reads.
  - intros ctx symbol. unfold WaypointCollection.one. rewrite system_of_addressed.
    apply fetch_data_reads.
Qed.

Lemma X23_witness :
  result (ShipCollection.one Part000 "TRADER-1" empty_state
            [ok (JObj [("data", JObj [("symbol", JStr "TRADER-1")])])])
  = Some (Return (JObj [("symbol", JStr "TRADER-1")]))
  /\ result (WaypointCollection.one IndexTs (mkCtx (Some "") None (Some "X1-AB12"))
               "X1-AB12-XYZ" empty_state [mkResponse 404 "no such waypoint" None])
     = Some (Throw (ApiError 404 "no such waypoint")).
Proof.
  destruct (X23_one_operations_read Part000) as (_ & _ & S & _).
  destruct (X23_one_operations_read IndexTs) as (_ & _ & _ & W).
  split.
  - destruct (S "TRADER-1" empty_state []) as (_ & _ & _ & H & _).
    apply (H (JObj [("data", JObj [("symbol", JStr "TRADER-1")])])). reflexivity.
  - destruct (W (mkCtx (Some "") None (Some "X1-AB12")) "X1-AB12-XYZ" empty_state [])
      as (_ & _ & _ & _ & H).
    apply H.
Defined.
